(** * shadowsocksr-native: the SOCKS5 address codec and the tunnel core

    A shallow embedding of [src/sockaddr_universal.c] (module [Codec]) and of
    [src/client/tunnel.c] (module [Tunnel]), with the properties the
    specification states about them. *)

From Stdlib Require Import ZArith List Lia Bool Permutation.
Import ListNotations.
Local Open Scope Z_scope.

(* ================================================================== *)
(** * The address codec, [sockaddr_universal.c] *)
(* ================================================================== *)

Module Codec.

(** Modelled from the spec: the header [sockaddr_universal.h] that declares
    [enum SOCKS5_ADDRTYPE] and [struct socks5_address] is not among the
    sources.  The wire scenarios of the specification fix the tags of IPv4
    ([01]) and of a domain name ([03]); IPv6 is the remaining SOCKS5 address
    type ([04]) and [INVALID] is a value that is none of the three. *)
Definition SOCKS5_ADDRTYPE_INVALID : Z := 0.
Definition SOCKS5_ADDRTYPE_IPV4 : Z := 1.
Definition SOCKS5_ADDRTYPE_DOMAINNAME : Z := 3.
Definition SOCKS5_ADDRTYPE_IPV6 : Z := 4.

(** Modelled from the spec: [sizeof(addr->addr.domainname)], the "fixed
    maximum buffer size" of the name.  The array holds every name a one-byte
    length prefix can declare (255 bytes) and its terminating NUL. *)
Definition sizeof_domainname : Z := 256.

Definition sizeof_uint8_t : Z := 1.
Definition sizeof_uint16_t : Z := 2.
Definition sizeof_in_addr : Z := 4.
Definition sizeof_in6_addr : Z := 16.

(** [struct socks5_address].  The union [addr] is kept as its bytes: [ipv4]
    is the first 4 of them, [ipv6] the first 16, [domainname] all of them. *)
Record socks5_address := mk_socks5_address {
  addr : list Z;
  port : Z;
  addr_type : Z
}.

Definition set_addr (a : socks5_address) (bs : list Z) : socks5_address :=
  mk_socks5_address bs (port a) (addr_type a).
Definition set_port (a : socks5_address) (p : Z) : socks5_address :=
  mk_socks5_address (addr a) p (addr_type a).
Definition set_addr_type (a : socks5_address) (t : Z) : socks5_address :=
  mk_socks5_address (addr a) (port a) t.

(** ** Memory behind a [uint8_t *]

    A pointer is [None] (NULL) or the memory it points into, indexed by the
    offset from the pointer.  A cell read as [uint8_t] is a byte; a value
    stored through a [uint8_t] lvalue is truncated to one. *)
Definition memory := Z -> Z.

Definition load8 (m : memory) (off : Z) : Z := m off mod 256.

Definition store8 (m : memory) (off v : Z) : memory :=
  fun i => if i =? off then v mod 256 else m i.

Fixpoint load_bytes (m : memory) (off : Z) (n : nat) : list Z :=
  match n with
  | O => []
  | S k => load8 m off :: load_bytes m (off + 1) k
  end.

Fixpoint store_bytes (m : memory) (off : Z) (bs : list Z) : memory :=
  match bs with
  | [] => m
  | b :: rest => store_bytes (store8 m off b) (off + 1) rest
  end.

(** The offsets [off, off+1, ..., off+n-1] an [n]-byte access touches. *)
Fixpoint offsets (off : Z) (n : nat) : list Z :=
  match n with
  | O => []
  | S k => off :: offsets (off + 1) k
  end.

(** [memcpy(dst, src, n)] into a field of the struct: the first [n] bytes of
    [dst] are replaced by [src] (which has [n] bytes). *)
Definition memcpy (dst src : list Z) : list Z :=
  src ++ skipn (length src) dst.

(** [memset(dst, 0, sizeof dst)] for the [domainname] array. *)
Definition memset0 (n : Z) : list Z := repeat 0 (Z.to_nat n).

(** [strlen] on the [domainname] array: the number of bytes before the first
    NUL.  An array that holds no NUL is read past its end by the C function;
    [valid_address], below, asks for the NUL. *)
Fixpoint strlen (s : list Z) : Z :=
  match s with
  | [] => 0
  | c :: rest => if c =? 0 then 0 else 1 + strlen rest
  end.

(** [ntohs] of the [uint16_t] at [data + offset]: the two bytes are in
    network order, the most significant first. *)
Definition load16_be (m : memory) (off : Z) : Z :=
  load8 m off * 256 + load8 m (off + 1).

(** [htons(port)] stored as a [uint16_t] at [buffer + offset]. *)
Definition store16_be (m : memory) (off v : Z) : memory :=
  store8 (store8 m off (v / 256)) (off + 1) v.

(** ** [socks5_address_parse] *)

(** What a call leaves behind: the returned [bool], the struct behind [addr]
    after the call ([None] when the pointer [addr] is NULL) and the offsets of [data]
    the call has read, in order. *)
Record parse_result := mk_parse_result {
  parse_ret : bool;
  parse_addr : option socks5_address;
  parse_reads : list Z
}.

(** The common end of the three accepted cases: [offset += addr_size], the
    port is read, [true] is returned. *)
Definition parse_port (d : memory) (offset addr_size : Z)
    (a : socks5_address) (reads : list Z) : parse_result :=
  let offset := offset + addr_size in
  let a := set_port a (load16_be d offset) in
  mk_parse_result true (Some a) (reads ++ offsets offset 2).

Definition socks5_address_parse (data : option memory) (len : Z)
    (addr_p : option socks5_address) : parse_result :=
  match data, len =? 0, addr_p with
  | Some d, false, Some a =>
      let offset := 0 in
      let addr_type := load8 d offset in
      let offset := offset + 1 in
      if addr_type =? SOCKS5_ADDRTYPE_IPV4 then
        let addr_size := sizeof_in_addr in
        if len <? sizeof_uint8_t + addr_size + sizeof_uint16_t then
          mk_parse_result false (Some a) [0]
        else
          let a := set_addr_type a SOCKS5_ADDRTYPE_IPV4 in
          let a := set_addr a
                     (memcpy (addr a) (load_bytes d offset (Z.to_nat addr_size))) in
          parse_port d offset addr_size a
            ([0] ++ offsets offset (Z.to_nat addr_size))
      else if addr_type =? SOCKS5_ADDRTYPE_DOMAINNAME then
        let addr_size := load8 d offset in
        let offset := offset + 1 in
        if len <? sizeof_uint8_t + sizeof_uint8_t + addr_size + sizeof_uint16_t then
          mk_parse_result false (Some a) [0; 1]
        else
          let a := set_addr_type a SOCKS5_ADDRTYPE_DOMAINNAME in
          let a := set_addr a (memset0 sizeof_domainname) in
          let a := set_addr a
                     (memcpy (addr a) (load_bytes d offset (Z.to_nat addr_size))) in
          parse_port d offset addr_size a
            ([0; 1] ++ offsets offset (Z.to_nat addr_size))
      else if addr_type =? SOCKS5_ADDRTYPE_IPV6 then
        let addr_size := sizeof_in6_addr in
        if len <? sizeof_uint8_t + addr_size + sizeof_uint16_t then
          mk_parse_result false (Some a) [0]
        else
          let a := set_addr_type a SOCKS5_ADDRTYPE_IPV6 in
          let a := set_addr a
                     (memcpy (addr a) (load_bytes d offset (Z.to_nat addr_size))) in
          parse_port d offset addr_size a
            ([0] ++ offsets offset (Z.to_nat addr_size))
      else
        let a := set_addr_type a SOCKS5_ADDRTYPE_INVALID in
        mk_parse_result false (Some a) [0]
  | _, _, _ => mk_parse_result false addr_p []
  end.

(** ** [socks5_address_size] *)

Definition socks5_address_size (addr_p : option socks5_address) : Z :=
  match addr_p with
  | None => 0
  | Some a =>
      if addr_type a =? SOCKS5_ADDRTYPE_IPV4 then
        sizeof_uint8_t + sizeof_in_addr + sizeof_uint16_t
      else if addr_type a =? SOCKS5_ADDRTYPE_DOMAINNAME then
        sizeof_uint8_t + sizeof_uint8_t + strlen (addr a) + sizeof_uint16_t
      else if addr_type a =? SOCKS5_ADDRTYPE_IPV6 then
        sizeof_uint8_t + sizeof_in6_addr + sizeof_uint16_t
      else 0
  end.

(** ** [socks5_address_binary] *)

(** The returned pointer ([false] for NULL, [true] for [buffer]), the memory
    behind [buffer] after the call and the offsets written, in order. *)
Record binary_result := mk_binary_result {
  binary_ret : bool;
  binary_buffer : option memory;
  binary_writes : list Z
}.

(** The common end of the three accepted cases: the port is stored at
    [offset] and [buffer] is returned. *)
Definition binary_port (b : memory) (offset : Z) (a : socks5_address)
    (writes : list Z) : binary_result :=
  mk_binary_result true (Some (store16_be b offset (port a)))
    (writes ++ offsets offset 2).

Definition socks5_address_binary (addr_p : option socks5_address)
    (buffer : option memory) (size : Z) : binary_result :=
  match addr_p, buffer, size =? 0 with
  | Some a, Some b, false =>
      if size <? socks5_address_size addr_p then
        mk_binary_result false buffer []
      else
        let offset := 0 in
        let b := store8 b offset (addr_type a) in
        let offset := offset + 1 in
        if addr_type a =? SOCKS5_ADDRTYPE_IPV4 then
          let src := firstn (Z.to_nat sizeof_in_addr) (addr a) in
          let b := store_bytes b offset src in
          binary_port b (offset + sizeof_in_addr) a
            ([0] ++ offsets offset (Z.to_nat sizeof_in_addr))
        else if addr_type a =? SOCKS5_ADDRTYPE_DOMAINNAME then
          let addr_size := strlen (addr a) in
          let b := store8 b offset addr_size in
          let offset := offset + 1 in
          let src := firstn (Z.to_nat addr_size) (addr a) in
          let b := store_bytes b offset src in
          binary_port b (offset + addr_size) a
            ([0; 1] ++ offsets offset (Z.to_nat addr_size))
        else if addr_type a =? SOCKS5_ADDRTYPE_IPV6 then
          let src := firstn (Z.to_nat sizeof_in6_addr) (addr a) in
          let b := store_bytes b offset src in
          binary_port b (offset + sizeof_in6_addr) a
            ([0] ++ offsets offset (Z.to_nat sizeof_in6_addr))
        else
          mk_binary_result false (Some b) [0]
  | _, _, _ => mk_binary_result false buffer []
  end.

(** ** What the properties are stated with *)

(** The part of the union the address type selects: the 4 bytes of [ipv4],
    the 16 bytes of [ipv6], or [domainname] up to its NUL. *)
Definition payload (a : socks5_address) : list Z :=
  if addr_type a =? SOCKS5_ADDRTYPE_IPV4 then
    firstn (Z.to_nat sizeof_in_addr) (addr a)
  else if addr_type a =? SOCKS5_ADDRTYPE_DOMAINNAME then
    firstn (Z.to_nat (strlen (addr a))) (addr a)
  else if addr_type a =? SOCKS5_ADDRTYPE_IPV6 then
    firstn (Z.to_nat sizeof_in6_addr) (addr a)
  else [].

Definition is_byte (b : Z) : Prop := 0 <= b < 256.

(** A target address a caller can hold: the union has its size and holds
    bytes, the port is a [uint16_t], the type is one of the three kinds and
    a domain name is NUL terminated inside its array. *)
Definition valid_address (a : socks5_address) : Prop :=
  Z.of_nat (length (addr a)) = sizeof_domainname /\
  Forall is_byte (addr a) /\
  0 <= port a < 65536 /\
  (addr_type a = SOCKS5_ADDRTYPE_IPV4 \/
   addr_type a = SOCKS5_ADDRTYPE_IPV6 \/
   (addr_type a = SOCKS5_ADDRTYPE_DOMAINNAME /\
    strlen (addr a) < sizeof_domainname)).

(** The tags [socks5_address_parse] accepts. *)
Definition recognized (tag : Z) : bool :=
  (tag =? SOCKS5_ADDRTYPE_IPV4) || (tag =? SOCKS5_ADDRTYPE_DOMAINNAME)
  || (tag =? SOCKS5_ADDRTYPE_IPV6).

(** Every offset of an access lies inside the first [len] bytes. *)
Definition in_bounds (len : Z) (offs : list Z) : Prop :=
  Forall (fun o => 0 <= o < len) offs.

(** What the round trip of [a] through a buffer of [size] bytes, parsed
    with length [len] into [out], has to give. *)
Definition roundtrip (a out : socks5_address) (buffer : memory)
    (size len : Z) : Prop :=
  let e := socks5_address_binary (Some a) (Some buffer) size in
  let p := socks5_address_parse (binary_buffer e) len (Some out) in
  binary_ret e = true /\
  Z.of_nat (length (binary_writes e)) = socks5_address_size (Some a) /\
  in_bounds (socks5_address_size (Some a)) (binary_writes e) /\
  parse_ret p = true /\
  in_bounds (socks5_address_size (Some a)) (parse_reads p) /\
  exists out',
    parse_addr p = Some out' /\
    addr_type out' = addr_type a /\
    payload out' = payload a /\
    port out' = port a.

(** The input reaches the [default] case of the switch: the guard lets it
    through and its tag is none of the three kinds. *)
Definition tag_rejected (data : option memory) (len : Z)
    (addr_p : option socks5_address) : bool :=
  match data, addr_p with
  | Some d, Some _ => negb (len =? 0) && negb (recognized (load8 d 0))
  | _, _ => false
  end.

(** ** Helpers for concrete buffers *)

(** The memory that holds [bs] at offsets [0 ..] and [0] after them. *)
Definition mem_of_list (bs : list Z) : memory :=
  fun i => if i <? 0 then 0 else nth (Z.to_nat i) bs 0.

(** A [domainname] array holding the string [s], NUL padded. *)
Definition name_array (s : list Z) : list Z :=
  s ++ repeat 0 (Z.to_nat sizeof_domainname - length s).

End Codec.


(* ================================================================== *)
(** * The tunnel core, [client/tunnel.c] *)
(* ================================================================== *)

Module Tunnel.

(** Modelled from the spec: [tunnel.h], which declares [enum socket_state],
    [struct socket_ctx] and [struct tunnel_ctx], is not among the sources.
    The four states are the spec's Idle, InProgress, Completed and Closed. *)
Inductive socket_state := socket_stop | socket_busy | socket_done | socket_dead.

Definition socket_state_eqb (a b : socket_state) : bool :=
  match a, b with
  | socket_stop, socket_stop | socket_busy, socket_busy
  | socket_done, socket_done | socket_dead, socket_dead => true
  | _, _ => false
  end.

(** The two socket contexts of a tunnel, [tunnel->incoming] and
    [tunnel->outgoing]; a [struct socket_ctx *] is one of them. *)
Inductive side := Incoming | Outgoing.

(** [union sockaddr_universal], as far as the core looks at it. *)
Record sockaddr := mk_sockaddr { sa_family : Z; sa_data : Z }.

(** The first entry of a [struct addrinfo] list. *)
Record addrinfo := mk_addrinfo { ai_family : Z; ai_addr : sockaddr }.

(** Modelled from the spec: the fields of [struct socket_ctx] the core
    uses.  [handle_data] and [timer_data] are the [data] fields of the two
    libuv handles, [buf] is the address of the read buffer. *)
Record socket_ctx := mk_socket_ctx {
  rdstate : socket_state;
  wrstate : socket_state;
  idle_timeout : Z;
  result : Z;
  handle_data : option side;
  timer_data : option side;
  t_addr : sockaddr;
  buf : Z;
  buf_size : Z
}.

(** Modelled from the spec: the data fields of [struct tunnel_ctx].  Its
    callback fields are kept apart in [tunnel_hooks], below. *)
Record tunnel_ctx := mk_tunnel_ctx {
  terminated : bool;
  getaddrinfo_pending : bool;
  ref_count : Z;
  incoming : socket_ctx;
  outgoing : socket_ctx
}.

(** The callback fields of [struct tunnel_ctx]: a hook is a function on the
    state of the session, [None] is a NULL function pointer.
    [tunnel_is_on_the_fly] is called without a NULL test. *)
Record tunnel_hooks := mk_tunnel_hooks {
  tunnel_dying : option (tunnel_ctx -> tunnel_ctx);
  tunnel_timeout_expire_done : option (tunnel_ctx -> side -> tunnel_ctx);
  tunnel_outgoing_connected_done : option (tunnel_ctx -> side -> tunnel_ctx);
  tunnel_read_done : option (tunnel_ctx -> side -> tunnel_ctx);
  tunnel_getaddrinfo_done : option (tunnel_ctx -> side -> tunnel_ctx);
  tunnel_write_done : option (tunnel_ctx -> side -> tunnel_ctx);
  tunnel_alloc_size : option (tunnel_ctx -> Z -> Z);
  tunnel_is_on_the_fly : tunnel_ctx -> bool
}.

(** The constants of [uv.h], [errno.h] and the socket headers the core
    compares with; their values depend on the platform. *)
Record uv_constants := mk_uv_constants {
  UV_ECANCELED : Z;
  UV_ECONNREFUSED : Z;
  UV_ECONNRESET : Z;
  UV_ETIMEDOUT : Z;
  UV_EOF : Z;
  AF_INET : Z;
  AF_INET6 : Z
}.

(** ** What the core asks of libuv, of the allocator and of the hooks *)

Inductive uv_handle := tcp_handle (c : side) | timer_handle (c : side).

Inductive heap_block :=
  | incoming_buf | incoming_ctx | outgoing_buf | outgoing_ctx | tunnel_mem
  | write_req.

Inductive hook :=
  | on_dying
  | on_timeout_expire_done (c : side)
  | on_outgoing_connected_done (c : side)
  | on_read_done (c : side)
  | on_getaddrinfo_done (c : side)
  | on_write_done (c : side).

Inductive event :=
  | uv_timer_init (c : side)
  | uv_tcp_init (c : side)
  | uv_accept (c : side)
  | uv_timer_start (c : side) (timeout : Z)
  | uv_timer_stop (c : side)
  | uv_tcp_connect (c : side)
  | uv_read_start (c : side)
  | uv_read_stop (c : side)
  | uv_getaddrinfo (c : side)
  | uv_freeaddrinfo
  | uv_write (c : side)
  | uv_cancel
  | uv_close (h : uv_handle)
  | free (b : heap_block)
  | call (h : hook).

Definition is_call (e : event) : bool :=
  match e with call _ => true | _ => false end.

(** The handles whose close has been requested, in the order of the
    requests. *)
Fixpoint close_requests (tr : list event) : list uv_handle :=
  match tr with
  | [] => []
  | uv_close h :: rest => h :: close_requests rest
  | _ :: rest => close_requests rest
  end.

(** ** The state the core runs on *)

(** The session and the log of the calls the core has made so far. *)
Record world := mk_world {
  tunnel : tunnel_ctx;
  trace : list event
}.

(** A function of the core returns, or the process stops in it: at a failed
    assertion or at a NULL pointer that is dereferenced. *)
Inductive outcome (A : Type) :=
  | Ok (a : A) (w : world)
  | Abort (w : world).
Arguments Ok {A} a w.
Arguments Abort {A} w.

Definition M (A : Type) := world -> outcome A.

Definition ret {A} (a : A) : M A := fun w => Ok a w.

Definition bind {A B} (m : M A) (k : A -> M B) : M B :=
  fun w => match m w with
           | Ok a w' => k a w'
           | Abort w' => Abort w'
           end.

Notation "x <- m ;; k" := (bind m (fun x => k))
  (at level 61, m at next level, right associativity).
Notation "m ;; k" := (bind m (fun _ => k))
  (at level 61, right associativity).

Definition get_tunnel : M tunnel_ctx := fun w => Ok (tunnel w) w.

Definition modify_tunnel (f : tunnel_ctx -> tunnel_ctx) : M unit :=
  fun w => Ok tt (mk_world (f (tunnel w)) (trace w)).

(** A call of libuv, of [free] or of a hook is logged.  The libuv calls the
    source wraps in [VERIFY(0 == ...)] are taken to succeed. *)
Definition emit (e : event) : M unit :=
  fun w => Ok tt (mk_world (tunnel w) (trace w ++ [e])).

Definition abort {A} : M A := fun w => Abort w.

Definition when (b : bool) (m : M unit) : M unit := if b then m else ret tt.

(** Modelled from the spec: the macros [ASSERT] and [UNREACHABLE] of
    [common.h] are missing.  A violated programming invariant is fatal to
    the process (section 7 of the specification). *)
Definition ASSERT (b : bool) : M unit := if b then ret tt else abort.
Definition UNREACHABLE : M unit := abort.

(** Field updates. *)
Definition set_rdstate (s : socket_state) (c : socket_ctx) : socket_ctx :=
  mk_socket_ctx s (wrstate c) (idle_timeout c) (result c) (handle_data c)
    (timer_data c) (t_addr c) (buf c) (buf_size c).
Definition set_wrstate (s : socket_state) (c : socket_ctx) : socket_ctx :=
  mk_socket_ctx (rdstate c) s (idle_timeout c) (result c) (handle_data c)
    (timer_data c) (t_addr c) (buf c) (buf_size c).
Definition set_result (r : Z) (c : socket_ctx) : socket_ctx :=
  mk_socket_ctx (rdstate c) (wrstate c) (idle_timeout c) r (handle_data c)
    (timer_data c) (t_addr c) (buf c) (buf_size c).
Definition set_handle_data (d : option side) (c : socket_ctx) : socket_ctx :=
  mk_socket_ctx (rdstate c) (wrstate c) (idle_timeout c) (result c) d
    (timer_data c) (t_addr c) (buf c) (buf_size c).
Definition set_timer_data (d : option side) (c : socket_ctx) : socket_ctx :=
  mk_socket_ctx (rdstate c) (wrstate c) (idle_timeout c) (result c)
    (handle_data c) d (t_addr c) (buf c) (buf_size c).
Definition set_t_addr (a : sockaddr) (c : socket_ctx) : socket_ctx :=
  mk_socket_ctx (rdstate c) (wrstate c) (idle_timeout c) (result c)
    (handle_data c) (timer_data c) a (buf c) (buf_size c).
Definition set_buf (p n : Z) (c : socket_ctx) : socket_ctx :=
  mk_socket_ctx (rdstate c) (wrstate c) (idle_timeout c) (result c)
    (handle_data c) (timer_data c) (t_addr c) p n.

Definition set_terminated (b : bool) (t : tunnel_ctx) : tunnel_ctx :=
  mk_tunnel_ctx b (getaddrinfo_pending t) (ref_count t) (incoming t) (outgoing t).
Definition set_getaddrinfo_pending (b : bool) (t : tunnel_ctx) : tunnel_ctx :=
  mk_tunnel_ctx (terminated t) b (ref_count t) (incoming t) (outgoing t).
Definition set_ref_count (n : Z) (t : tunnel_ctx) : tunnel_ctx :=
  mk_tunnel_ctx (terminated t) (getaddrinfo_pending t) n (incoming t) (outgoing t).

(** The socket context behind a [struct socket_ctx *]. *)
Definition sock (t : tunnel_ctx) (c : side) : socket_ctx :=
  match c with Incoming => incoming t | Outgoing => outgoing t end.

Definition set_sock (c : side) (s : socket_ctx) (t : tunnel_ctx) : tunnel_ctx :=
  match c with
  | Incoming =>
      mk_tunnel_ctx (terminated t) (getaddrinfo_pending t) (ref_count t) s (outgoing t)
  | Outgoing =>
      mk_tunnel_ctx (terminated t) (getaddrinfo_pending t) (ref_count t) (incoming t) s
  end.

Definition modify_sock (c : side) (f : socket_ctx -> socket_ctx) : M unit :=
  modify_tunnel (fun t => set_sock c (f (sock t c)) t).

(** [int] arithmetic: the value is kept in 32 bits, two's complement. *)
Definition INT_MAX : Z := 2147483647.
Definition int_wrap (z : Z) : Z := (z + 2 ^ 31) mod 2 ^ 32 - 2 ^ 31.

(** A hook is called: the call is logged and the hook acts on the session. *)
Definition call_hook (h : hook) (f : tunnel_ctx -> tunnel_ctx) : M unit :=
  emit (call h) ;; modify_tunnel f.

(** [ASSERT(hook); hook(tunnel, c);] *)
Definition call_required (h : hook)
    (f : option (tunnel_ctx -> side -> tunnel_ctx)) (c : side) : M unit :=
  match f with
  | Some g => call_hook h (fun t => g t c)
  | None => abort
  end.

Section Core.

Variable K : uv_constants.
Variable H : tunnel_hooks.

Definition tunnel_is_dead (t : tunnel_ctx) : bool :=
  negb (Bool.eqb (terminated t) false).

Definition tunnel_add_ref : M unit :=
  modify_tunnel (fun t => set_ref_count (int_wrap (ref_count t + 1)) t).

Definition tunnel_release : M unit :=
  modify_tunnel (fun t => set_ref_count (int_wrap (ref_count t - 1)) t) ;;
  t <- get_tunnel ;;
  if ref_count t =? 0 then
    (match tunnel_dying H with
     | Some f => call_hook on_dying f
     | None => ret tt
     end) ;;
    emit (free incoming_buf) ;;
    emit (free incoming_ctx) ;;
    emit (free outgoing_buf) ;;
    emit (free outgoing_ctx) ;;
    emit (free tunnel_mem)
  else ret tt.

Definition socket_timer_start (c : side) : M unit :=
  t <- get_tunnel ;;
  emit (uv_timer_start c (idle_timeout (sock t c))).

Definition socket_timer_stop (c : side) : M unit :=
  emit (uv_timer_stop c).

Definition socket_close (c : side) : M unit :=
  t <- get_tunnel ;;
  ASSERT (negb (socket_state_eqb (rdstate (sock t c)) socket_dead)) ;;
  ASSERT (negb (socket_state_eqb (wrstate (sock t c)) socket_dead)) ;;
  modify_sock c (set_rdstate socket_dead) ;;
  modify_sock c (set_wrstate socket_dead) ;;
  modify_sock c (set_timer_data (Some c)) ;;
  modify_sock c (set_handle_data (Some c)) ;;
  tunnel_add_ref ;;
  emit (uv_close (tcp_handle c)) ;;
  tunnel_add_ref ;;
  emit (uv_close (timer_handle c)).

(** [handle->data], the socket context a closed handle belongs to. *)
Definition data_of (t : tunnel_ctx) (h : uv_handle) : option side :=
  match h with
  | tcp_handle c => handle_data (sock t c)
  | timer_handle c => timer_data (sock t c)
  end.

Definition socket_close_done_cb (handle : uv_handle) : M unit :=
  t <- get_tunnel ;;
  match data_of t handle with
  | Some _ => tunnel_release
  | None => abort
  end.

Definition tunnel_shutdown : M unit :=
  t <- get_tunnel ;;
  if negb (Bool.eqb (tunnel_is_dead t) false) then ret tt
  else
    when (getaddrinfo_pending t) (emit uv_cancel) ;;
    socket_close Incoming ;;
    socket_close Outgoing ;;
    modify_tunnel (set_terminated true).

Definition socket_read (c : side) : M unit :=
  t <- get_tunnel ;;
  ASSERT (socket_state_eqb (rdstate (sock t c)) socket_stop) ;;
  emit (uv_read_start c) ;;
  modify_sock c (set_rdstate socket_busy) ;;
  socket_timer_start c.

(** [init_done_cb] returns its verdict and the session as it leaves it;
    [None] is a NULL callback. *)
Definition tunnel_initialize (idle_timeout : Z)
    (init_done_cb : option (tunnel_ctx -> bool * tunnel_ctx)) : M unit :=
  let zero := mk_socket_ctx socket_stop socket_stop idle_timeout 0 None None
                (mk_sockaddr 0 0) 0 0 in
  modify_tunnel (fun _ => mk_tunnel_ctx false false 0 zero zero) ;;
  emit (uv_timer_init Incoming) ;;
  emit (uv_tcp_init Incoming) ;;
  emit (uv_accept Incoming) ;;
  emit (uv_timer_init Outgoing) ;;
  emit (uv_tcp_init Outgoing) ;;
  t <- get_tunnel ;;
  let r := match init_done_cb with
           | Some f => f t
           | None => (false, t)
           end in
  modify_tunnel (fun _ => snd r) ;;
  if fst r then socket_read Incoming else tunnel_shutdown.

Definition socket_timer_expire_cb (c : side) : M unit :=
  modify_sock c (set_result (UV_ETIMEDOUT K)) ;;
  t <- get_tunnel ;;
  if tunnel_is_dead t then ret tt
  else
    (match tunnel_timeout_expire_done H with
     | Some f => call_hook (on_timeout_expire_done c) (fun t => f t c)
     | None => ret tt
     end) ;;
    tunnel_shutdown.

(** [uv_tcp_connect] is asked for the connection; what it returns is
    libuv's, [uv_status]. *)
Definition socket_connect (c : side) (uv_status : Z) : M Z :=
  t <- get_tunnel ;;
  ASSERT ((sa_family (t_addr (sock t c)) =? AF_INET K)
          || (sa_family (t_addr (sock t c)) =? AF_INET6 K)) ;;
  socket_timer_start c ;;
  emit (uv_tcp_connect c) ;;
  ret uv_status.

Definition socket_connect_done_cb (c : side) (status : Z) : M unit :=
  modify_sock c (set_result status) ;;
  t <- get_tunnel ;;
  if tunnel_is_dead t then ret tt
  else
    socket_timer_stop c ;;
    if (status =? UV_ECANCELED K) || (status =? UV_ECONNREFUSED K) then
      tunnel_shutdown
    else
      call_required (on_outgoing_connected_done c)
        (tunnel_outgoing_connected_done H) c.

(** [buf_base] is [buf->base], the buffer libuv has read into. *)
Definition socket_read_done_cb (c : side) (nread : Z) (buf_base : Z) : M unit :=
  t <- get_tunnel ;;
  if tunnel_is_dead t then ret tt
  else
    when (Bool.eqb (tunnel_is_on_the_fly H t) false) (emit (uv_read_stop c)) ;;
    socket_timer_stop c ;;
    if nread =? 0 then ret tt
    else if nread <? 0 then
      ASSERT ((nread =? UV_EOF K) || (nread =? UV_ECONNRESET K)) ;;
      tunnel_shutdown
    else
      t <- get_tunnel ;;
      ASSERT (buf (sock t c) =? buf_base) ;;
      when (Bool.eqb (tunnel_is_on_the_fly H t) false)
        (ASSERT (socket_state_eqb (rdstate (sock t c)) socket_busy)) ;;
      modify_sock c (set_rdstate socket_done) ;;
      modify_sock c (set_result nread) ;;
      call_required (on_read_done c) (tunnel_read_done H) c.

Definition socket_read_stop (c : side) : M unit :=
  emit (uv_read_stop c) ;;
  modify_sock c (set_rdstate socket_stop).

(** [realloc] returns the block at [new_buf]; the function returns the
    [uv_buf_t] it fills in, base and length. *)
Definition socket_alloc_cb (c : side) (size : Z) (new_buf : Z) : M (Z * Z) :=
  t <- get_tunnel ;;
  when (Bool.eqb (tunnel_is_on_the_fly H t) false)
    (ASSERT (socket_state_eqb (rdstate (sock t c)) socket_busy)) ;;
  let size := match tunnel_alloc_size H with
              | Some f => f t size
              | None => size
              end in
  modify_sock c (set_buf new_buf size) ;;
  ret (new_buf, size).

(** The host name goes to libuv and nowhere else. *)
Definition socket_getaddrinfo (c : side) : M unit :=
  emit (uv_getaddrinfo c) ;;
  socket_timer_start c ;;
  modify_tunnel (set_getaddrinfo_pending true).

Definition socket_getaddrinfo_done_cb (c : side) (status : Z)
    (ai : option addrinfo) : M unit :=
  modify_sock c (set_result status) ;;
  modify_tunnel (set_getaddrinfo_pending false) ;;
  t <- get_tunnel ;;
  if tunnel_is_dead t then ret tt
  else
    socket_timer_stop c ;;
    when (status =? 0)
      (match ai with
       | None => abort
       | Some a =>
           if ai_family a =? AF_INET K then
             modify_sock c (set_t_addr (ai_addr a))
           else if ai_family a =? AF_INET6 K then
             modify_sock c (set_t_addr (ai_addr a))
           else UNREACHABLE
       end) ;;
    emit uv_freeaddrinfo ;;
    call_required (on_getaddrinfo_done c) (tunnel_getaddrinfo_done H) c.

(** The data and its length go to libuv and nowhere else. *)
Definition socket_write (c : side) : M unit :=
  t <- get_tunnel ;;
  when (Bool.eqb (tunnel_is_on_the_fly H t) false)
    (ASSERT (socket_state_eqb (wrstate (sock t c)) socket_stop
             || socket_state_eqb (wrstate (sock t c)) socket_done)) ;;
  modify_sock c (set_wrstate socket_busy) ;;
  emit (uv_write c) ;;
  socket_timer_start c.

Definition socket_write_done_cb (c : side) (status : Z) : M unit :=
  emit (free write_req) ;;
  t <- get_tunnel ;;
  if tunnel_is_dead t then ret tt
  else
    socket_timer_stop c ;;
    if status =? UV_ECANCELED K then tunnel_shutdown
    else
      t <- get_tunnel ;;
      when (Bool.eqb (tunnel_is_on_the_fly H t) false)
        (ASSERT (socket_state_eqb (wrstate (sock t c)) socket_busy)) ;;
      modify_sock c (set_wrstate socket_done) ;;
      modify_sock c (set_result status) ;;
      call_required (on_write_done c) (tunnel_write_done H) c.

(** The reactor delivers the close completions of [handles], in that
    order. *)
Fixpoint close_completions (handles : list uv_handle) : M unit :=
  match handles with
  | [] => ret tt
  | h :: rest => socket_close_done_cb h ;; close_completions rest
  end.

End Core.

(** ** What the properties are stated with *)

(** The calls of collaborator hooks a log holds. *)
Definition calls (tr : list event) : list event := filter is_call tr.

(** How often the session has been destroyed: the calls of [on_dying] and
    the releases of the tunnel's own memory in a log. *)
Definition dying_calls (tr : list event) : nat :=
  length (filter (fun e => match e with call on_dying => true | _ => false end) tr).
Definition destructions (tr : list event) : nat :=
  length (filter (fun e => match e with free tunnel_mem => true | _ => false end) tr).

(** What [tunnel_release] does when the count reaches zero, as a log. *)
Definition destroy_events (H : tunnel_hooks) : list event :=
  match tunnel_dying H with Some _ => [call on_dying] | None => [] end
  ++ [free incoming_buf; free incoming_ctx; free outgoing_buf;
      free outgoing_ctx; free tunnel_mem].

(** The handle knows its socket context: its [data] field is set. *)
Definition has_data (t : tunnel_ctx) (h : uv_handle) : Prop :=
  data_of t h <> None.

(** A socket that has not been closed, and one that has. *)
Definition open_socket (s : socket_ctx) : Prop :=
  rdstate s <> socket_dead /\ wrstate s <> socket_dead.
Definition closed_socket (s : socket_ctx) : Prop :=
  rdstate s = socket_dead /\ wrstate s = socket_dead.

(** A session before its shutdown: not terminated, both sockets open. *)
Definition live (t : tunnel_ctx) : Prop :=
  terminated t = false /\ open_socket (incoming t) /\ open_socket (outgoing t).

(** [n] calls of [tunnel_shutdown] in a row. *)
Fixpoint shutdowns (n : nat) : M unit :=
  match n with
  | O => ret tt
  | S k => tunnel_shutdown ;; shutdowns k
  end.

(** The read- and write-states of both sockets. *)
Definition states (t : tunnel_ctx) : list socket_state :=
  [rdstate (incoming t); wrstate (incoming t);
   rdstate (outgoing t); wrstate (outgoing t)].

(** The socket context [socket_close] leaves. *)
Definition closed_ctx (c : side) (s : socket_ctx) : socket_ctx :=
  set_handle_data (Some c)
    (set_timer_data (Some c) (set_wrstate socket_dead (set_rdstate socket_dead s))).

(** The session [tunnel_shutdown] leaves of a live one, and what it asks of
    libuv on the way. *)
Definition after_shutdown (t : tunnel_ctx) : tunnel_ctx :=
  set_terminated true
    (set_ref_count
       (int_wrap (int_wrap (int_wrap (int_wrap (ref_count t + 1) + 1) + 1) + 1))
       (set_sock Outgoing (closed_ctx Outgoing (outgoing t))
          (set_sock Incoming (closed_ctx Incoming (incoming t)) t))).

Definition shutdown_events (t : tunnel_ctx) : list event :=
  (if getaddrinfo_pending t then [uv_cancel] else [])
  ++ [uv_close (tcp_handle Incoming); uv_close (timer_handle Incoming);
      uv_close (tcp_handle Outgoing); uv_close (timer_handle Outgoing)].

(** The session the last [tunnel_release] leaves: the count is zero and
    [tunnel_dying], if set, has run. *)
Definition after_release (H : tunnel_hooks) (t : tunnel_ctx) : tunnel_ctx :=
  match tunnel_dying H with
  | Some f => f (set_ref_count 0 t)
  | None => set_ref_count 0 t
  end.

(** The session with [r] stored in the [result] of the socket [c]. *)
Definition with_result (c : side) (r : Z) (t : tunnel_ctx) : tunnel_ctx :=
  set_sock c (set_result r (sock t c)) t.

(** A callback has returned and has left alone what the teardown rests on:
    the flag, the count, the four states, and it has called no hook and
    asked for no close. *)
Definition left_alone (w : world) (o : outcome unit) : Prop :=
  exists w',
    o = Ok tt w' /\
    terminated (tunnel w') = terminated (tunnel w) /\
    ref_count (tunnel w') = ref_count (tunnel w) /\
    states (tunnel w') = states (tunnel w) /\
    calls (trace w') = calls (trace w) /\
    close_requests (trace w') = close_requests (trace w).

(** ** Concrete sessions *)

(** The values of the constants on Linux. *)
Definition linux_constants : uv_constants :=
  mk_uv_constants (-125) (-111) (-104) (-110) (-4095) 2 10.

(** A collaborator that sets the required hooks and the optional
    [tunnel_dying]; none of them acts on the session. *)
Definition idle_hooks (on_the_fly : bool) : tunnel_hooks :=
  mk_tunnel_hooks (Some (fun t => t)) None (Some (fun t _ => t))
    (Some (fun t _ => t)) (Some (fun t _ => t)) (Some (fun t _ => t))
    None (fun _ => on_the_fly).

Definition fresh_socket : socket_ctx :=
  mk_socket_ctx socket_stop socket_stop 60000 0 None None (mk_sockaddr 0 0) 0 0.

(** A session as [tunnel_initialize] allocates it. *)
Definition fresh_world : world :=
  mk_world (mk_tunnel_ctx false false 0 fresh_socket fresh_socket) [].

Definition closed_socket_of (c : side) (r : Z) : socket_ctx :=
  mk_socket_ctx socket_dead socket_dead 60000 r (Some c) (Some c)
    (mk_sockaddr 0 0) 0 0.

(** The session [tunnel_shutdown] leaves of a fresh one whose incoming
    socket has read 5 bytes before. *)
Definition terminated_world : world :=
  mk_world
    (mk_tunnel_ctx true false 4 (closed_socket_of Incoming 5)
       (closed_socket_of Outgoing 0))
    [uv_close (tcp_handle Incoming); uv_close (timer_handle Incoming);
     uv_close (tcp_handle Outgoing); uv_close (timer_handle Outgoing)].

(** ** More of what the properties are stated with *)

(** The session [tunnel_initialize] allocates, and its calls of libuv before
    the callback. *)
Definition new_socket (idle_timeout : Z) : socket_ctx :=
  mk_socket_ctx socket_stop socket_stop idle_timeout 0 None None
    (mk_sockaddr 0 0) 0 0.
Definition new_tunnel (idle_timeout : Z) : tunnel_ctx :=
  mk_tunnel_ctx false false 0 (new_socket idle_timeout) (new_socket idle_timeout).
Definition init_events : list event :=
  [uv_timer_init Incoming; uv_tcp_init Incoming; uv_accept Incoming;
   uv_timer_init Outgoing; uv_tcp_init Outgoing].

(** The verdict of [init_done_cb] and the session it leaves. *)
Definition init_verdict (idle_timeout : Z)
    (cb : option (tunnel_ctx -> bool * tunnel_ctx)) : bool * tunnel_ctx :=
  match cb with
  | Some f => f (new_tunnel idle_timeout)
  | None => (false, new_tunnel idle_timeout)
  end.

(** The reads and the cancellations a log holds. *)
Definition reads_started (tr : list event) : nat :=
  length (filter (fun e => match e with uv_read_start _ => true | _ => false end) tr).
Definition cancels (tr : list event) : nat :=
  length (filter (fun e => match e with uv_cancel => true | _ => false end) tr).

(** An operation has left the teardown alone: the flag, the count, the
    closes requested and the hooks called are what they were, and a live
    session is still live. *)
Definition kept (w w' : world) : Prop :=
  terminated (tunnel w') = terminated (tunnel w) /\
  ref_count (tunnel w') = ref_count (tunnel w) /\
  close_requests (trace w') = close_requests (trace w) /\
  calls (trace w') = calls (trace w) /\
  (live (tunnel w) -> live (tunnel w')).

End Tunnel.

(* ================================================================== *)
(** * [convert_address], [sockaddr_universal.c] *)
(* ================================================================== *)

Module Convert.

(** [union sockaddr_universal] as [convert_address] uses it: the family,
    the two bytes of the port field in memory (network order) and the rest
    of the address.  [sockaddr_in] and [sockaddr_in6] keep family and port
    at the same place. *)
Record sockaddr_universal := mk_sockaddr_universal {
  family : Z;
  port_field : list Z;
  rest : Z
}.

(** The first entry of the list [getaddrinfo] returns. *)
Record addrinfo := mk_addrinfo { ai_family : Z; ai_addr : sockaddr_universal }.

(** [getaddrinfo] of the C library, for the numeric hints the function
    passes: from the node and the service text to the status and, on
    success, the list. *)
Definition resolver := list Z -> list Z -> Z * option addrinfo.

(** The decimal digits of [n], most significant first, as characters. *)
Fixpoint utoa (fuel : nat) (n : Z) : list Z :=
  match fuel with
  | O => []
  | S f => if n <? 10 then [48 + n]
           else utoa f (n / 10) ++ [48 + n mod 10]
  end.

(** [sprintf(port_buffer, "%hu", port)]: what is written to [port_buffer],
    the terminating NUL included.  An [unsigned short] has at most five
    digits. *)
Definition sprintf_hu (port : Z) : list Z := utoa 5 (port mod 65536) ++ [0].

(** [sizeof port_buffer]. *)
Definition sizeof_port_buffer : Z := 6.

(** The service text of a decimal string, as [getaddrinfo] reads it. *)
Definition decimal_value (s : list Z) : Z :=
  fold_left (fun acc c => acc * 10 + (c - 48)) s 0.

(** The bytes of [htons(port)] in memory. *)
Definition htons_bytes (port : Z) : list Z :=
  [(port / 256) mod 256; port mod 256].

Definition set_port_field (a : sockaddr_universal) (p : list Z) :
    sockaddr_universal :=
  mk_sockaddr_universal (family a) p (rest a).

(** [convert_address]: the returned [int] and the union behind [addr] after
    the call; [None] when the process stops, at [assert(0)] or at a NULL
    list that is dereferenced.  The parameter [port] is an
    [unsigned short]: what the caller passes arrives in 16 bits. *)
Definition convert_address (K : Tunnel.uv_constants) (getaddrinfo : resolver)
    (addr_str : option (list Z)) (port : Z)
    (addr : option sockaddr_universal) :
    option (Z * option sockaddr_universal) :=
  let port := port mod 65536 in
  let result := -1 in
  match addr_str, port =? 0, addr with
  | Some s, false, Some _ =>
      let port_buffer := sprintf_hu port in
      let (status, ai) := getaddrinfo s port_buffer in
      if negb (status =? 0) then Some (result, addr)
      else
        match ai with
        | None => None
        | Some e =>
            if ai_family e =? Tunnel.AF_INET K then
              Some (0, Some (set_port_field (ai_addr e) (htons_bytes port)))
            else if ai_family e =? Tunnel.AF_INET6 K then
              Some (0, Some (set_port_field (ai_addr e) (htons_bytes port)))
            else None
        end
  | _, _, _ => Some (result, addr)
  end.

(** A resolver for concrete calls: it knows one host. *)
Definition one_host (host : list Z) (e : addrinfo) : resolver :=
  fun node service =>
    if list_eq_dec Z.eq_dec node host then (0, Some e) else (-2, None).

End Convert.

(* ================================================================== *)
(** * Properties of the address codec *)
(* ================================================================== *)

Module CodecProofs.
Import Codec.

(** ** Loads and stores *)

Lemma load8_is_byte (m : memory) (i : Z) : is_byte (load8 m i).
Proof. unfold is_byte, load8. apply Z.mod_pos_bound. lia. Qed.

Lemma load8_store8 (m : memory) (o v i : Z) :
  load8 (store8 m o v) i = if i =? o then v mod 256 else load8 m i.
Proof.
  unfold load8, store8. destruct (i =? o); [|reflexivity].
  apply Z.mod_mod. lia.
Qed.

Lemma load8_store8_other (m : memory) (o v i : Z) :
  i <> o -> load8 (store8 m o v) i = load8 m i.
Proof.
  intros Hne. rewrite load8_store8.
  destruct (Z.eqb_spec i o); [contradiction | reflexivity].
Qed.

Lemma load8_store8_same (m : memory) (o v : Z) :
  is_byte v -> load8 (store8 m o v) o = v.
Proof.
  intros Hv. rewrite load8_store8, Z.eqb_refl. apply Z.mod_small. exact Hv.
Qed.

Lemma load8_store_bytes_before (bs : list Z) :
  forall (m : memory) (off i : Z),
    i < off -> load8 (store_bytes m off bs) i = load8 m i.
Proof.
  induction bs as [|b bs IH]; intros m off i Hlt; simpl.
  - reflexivity.
  - rewrite IH by lia. apply load8_store8_other. lia.
Qed.

Lemma load_bytes_ext (n : nat) :
  forall (m m' : memory) (off : Z),
    (forall i, off <= i < off + Z.of_nat n -> load8 m i = load8 m' i) ->
    load_bytes m off n = load_bytes m' off n.
Proof.
  induction n as [|n IH]; intros m m' off Hext; simpl.
  - reflexivity.
  - f_equal.
    + apply Hext. lia.
    + apply IH. intros i Hi. apply Hext. lia.
Qed.

Lemma load_bytes_store_bytes (bs : list Z) :
  forall (m : memory) (off : Z),
    Forall is_byte bs ->
    load_bytes (store_bytes m off bs) off (length bs) = bs.
Proof.
  induction bs as [|b bs IH]; intros m off Hbs; simpl.
  - reflexivity.
  - inversion Hbs as [|? ? Hb Hrest]; subst. f_equal.
    + rewrite load8_store_bytes_before by lia.
      apply load8_store8_same. exact Hb.
    + apply IH. exact Hrest.
Qed.

Lemma length_load_bytes (n : nat) :
  forall (m : memory) (off : Z), length (load_bytes m off n) = n.
Proof. induction n; intros; simpl; [reflexivity | f_equal; auto]. Qed.

Lemma length_offsets (n : nat) :
  forall off : Z, length (offsets off n) = n.
Proof. induction n; intros; simpl; [reflexivity | f_equal; auto]. Qed.

Lemma offsets_in_bounds (n : nat) :
  forall off len : Z,
    0 <= off -> off + Z.of_nat n <= len -> in_bounds len (offsets off n).
Proof.
  unfold in_bounds.
  induction n as [|n IH]; intros off len H0 Hle; simpl; constructor.
  - lia.
  - apply IH; lia.
Qed.

Lemma in_bounds_app (len : Z) (l1 l2 : list Z) :
  in_bounds len l1 -> in_bounds len l2 -> in_bounds len (l1 ++ l2).
Proof. unfold in_bounds. intros. apply Forall_app. split; assumption. Qed.

(** ** Strings in the [domainname] array *)

Lemma strlen_bounds (s : list Z) : 0 <= strlen s <= Z.of_nat (length s).
Proof.
  induction s as [|c s IH]; cbn [strlen length].
  - lia.
  - destruct (c =? 0); lia.
Qed.

Lemma strlen_prefix_nul (s rest : list Z) :
  strlen (firstn (Z.to_nat (strlen s)) s ++ 0 :: rest) = strlen s.
Proof.
  induction s as [|c s IH]; cbn [strlen].
  - reflexivity.
  - destruct (c =? 0) eqn:Hc.
    + reflexivity.
    + pose proof (strlen_bounds s) as Hb.
      replace (Z.to_nat (1 + strlen s)) with (S (Z.to_nat (strlen s))) by lia.
      cbn [firstn app strlen]. rewrite Hc, IH. reflexivity.
Qed.

Lemma firstn_app_exact {A} (l r : list A) (n : nat) :
  length l = n -> firstn n (l ++ r) = l.
Proof.
  intros <-. rewrite firstn_app, Nat.sub_diag, firstn_all. simpl.
  apply app_nil_r.
Qed.

Lemma Forall_firstn_byte (n : nat) (l : list Z) :
  Forall is_byte l -> Forall is_byte (firstn n l).
Proof.
  intros Hl. rewrite <- (firstn_skipn n l) in Hl.
  apply Forall_app in Hl. apply Hl.
Qed.

Lemma load16_store16 (m : memory) (q p : Z) :
  0 <= p < 65536 -> load16_be (store16_be m q p) q = p.
Proof.
  intros Hp. unfold load16_be, store16_be.
  rewrite (load8_store8_other _ (q + 1)) by lia.
  rewrite load8_store8_same.
  2:{ unfold is_byte. split; [apply Z.div_pos; lia | apply Z.div_lt_upper_bound; lia]. }
  rewrite load8_store8, Z.eqb_refl.
  pose proof (Z.div_mod p 256). lia.
Qed.

Lemma load8_store16_before (m : memory) (q p i : Z) :
  i < q -> load8 (store16_be m q p) i = load8 m i.
Proof.
  intros Hlt. unfold store16_be.
  rewrite !load8_store8_other by lia. reflexivity.
Qed.

(** The memory [socks5_address_binary] leaves: the tag at offset 0, the
    bytes [body] after it and the port after them. *)
Lemma encoded_memory (b : memory) (tag p : Z) (body : list Z) :
  is_byte tag -> Forall is_byte body -> 0 <= p < 65536 ->
  let q := 1 + Z.of_nat (length body) in
  let m := store16_be (store_bytes (store8 b 0 tag) 1 body) q p in
  load8 m 0 = tag /\
  load_bytes m 1 (length body) = body /\
  load16_be m q = p.
Proof.
  intros Htag Hbody Hp q m. subst m. repeat split.
  - rewrite load8_store16_before by lia.
    rewrite load8_store_bytes_before by lia.
    apply load8_store8_same. exact Htag.
  - transitivity (load_bytes (store_bytes (store8 b 0 tag) 1 body) 1 (length body)).
    + apply load_bytes_ext. intros i Hi.
      apply load8_store16_before. lia.
    + apply load_bytes_store_bytes. exact Hbody.
  - apply load16_store16. exact Hp.
Qed.

Lemma strlen_byte (a : socks5_address) :
  valid_address a -> addr_type a = SOCKS5_ADDRTYPE_DOMAINNAME ->
  is_byte (strlen (addr a)).
Proof.
  intros (Hlen & _ & _ & Hk) Ht. pose proof (strlen_bounds (addr a)).
  unfold is_byte, sizeof_domainname in *.
  destruct Hk as [Hk | [Hk | [_ Hk]]]; try lia;
    rewrite Ht in Hk; discriminate Hk.
Qed.

Lemma length_firstn_addr (a : socks5_address) (n : Z) :
  valid_address a -> 0 <= n <= 256 ->
  length (firstn (Z.to_nat n) (addr a)) = Z.to_nat n.
Proof.
  intros (Hlen & _) Hn. unfold sizeof_domainname in Hlen.
  apply firstn_length_le. lia.
Qed.


(** Settles the tests of a definition once the arithmetic facts that decide
    them are among the hypotheses. *)
Ltac settle_tests :=
  repeat match goal with
         | |- context [?x =? ?y] =>
             destruct (Z.eqb_spec x y); try lia; try discriminate
         | |- context [?x <? ?y] =>
             destruct (Z.ltb_spec x y); try lia
         end.

Ltac codec_constants :=
  unfold SOCKS5_ADDRTYPE_IPV4, SOCKS5_ADDRTYPE_DOMAINNAME,
    SOCKS5_ADDRTYPE_IPV6, SOCKS5_ADDRTYPE_INVALID, sizeof_uint8_t,
    sizeof_uint16_t, sizeof_in_addr, sizeof_in6_addr, sizeof_domainname in *.

(** ** The accepted cases of [socks5_address_binary], as equations *)

Lemma binary_ipv4 (a : socks5_address) (b : memory) (size : Z) :
  addr_type a = SOCKS5_ADDRTYPE_IPV4 -> 7 <= size ->
  socks5_address_binary (Some a) (Some b) size =
  mk_binary_result true
    (Some (store16_be (store_bytes (store8 b 0 1) 1 (firstn 4 (addr a)))
             5 (port a)))
    (offsets 0 7).
Proof.
  intros Ht Hsize. unfold socks5_address_binary, socks5_address_size.
  rewrite Ht. codec_constants. settle_tests. reflexivity.
Qed.

Lemma binary_ipv6 (a : socks5_address) (b : memory) (size : Z) :
  addr_type a = SOCKS5_ADDRTYPE_IPV6 -> 19 <= size ->
  socks5_address_binary (Some a) (Some b) size =
  mk_binary_result true
    (Some (store16_be (store_bytes (store8 b 0 4) 1 (firstn 16 (addr a)))
             17 (port a)))
    (offsets 0 19).
Proof.
  intros Ht Hsize. unfold socks5_address_binary, socks5_address_size.
  rewrite Ht. codec_constants. settle_tests. reflexivity.
Qed.

Lemma binary_domainname (a : socks5_address) (b : memory) (size : Z) :
  addr_type a = SOCKS5_ADDRTYPE_DOMAINNAME ->
  4 + strlen (addr a) <= size ->
  socks5_address_binary (Some a) (Some b) size =
  mk_binary_result true
    (Some (store16_be
             (store_bytes (store8 b 0 3) 1
                (strlen (addr a) :: firstn (Z.to_nat (strlen (addr a))) (addr a)))
             (2 + strlen (addr a)) (port a)))
    ([0; 1] ++ offsets 2 (Z.to_nat (strlen (addr a)))
       ++ offsets (2 + strlen (addr a)) 2).
Proof.
  intros Ht Hsize. pose proof (strlen_bounds (addr a)).
  unfold socks5_address_binary, socks5_address_size.
  rewrite Ht. codec_constants. cbv zeta.
  change (0 + 1 + 1) with 2. change (0 + 1) with 1. settle_tests.
  unfold binary_port. cbn [store_bytes]. change (1 + 1) with 2.
  rewrite <- app_assoc. reflexivity.
Qed.

(** ** The accepted cases of [socks5_address_parse], as equations *)

Lemma parse_ipv4 (d : memory) (len : Z) (out : socks5_address) :
  load8 d 0 = SOCKS5_ADDRTYPE_IPV4 -> 7 <= len ->
  socks5_address_parse (Some d) len (Some out) =
  mk_parse_result true
    (Some (mk_socks5_address (memcpy (addr out) (load_bytes d 1 4))
             (load16_be d 5) SOCKS5_ADDRTYPE_IPV4))
    (offsets 0 7).
Proof.
  intros Ht Hlen. unfold socks5_address_parse. rewrite Ht.
  codec_constants. settle_tests. reflexivity.
Qed.

Lemma parse_ipv6 (d : memory) (len : Z) (out : socks5_address) :
  load8 d 0 = SOCKS5_ADDRTYPE_IPV6 -> 19 <= len ->
  socks5_address_parse (Some d) len (Some out) =
  mk_parse_result true
    (Some (mk_socks5_address (memcpy (addr out) (load_bytes d 1 16))
             (load16_be d 17) SOCKS5_ADDRTYPE_IPV6))
    (offsets 0 19).
Proof.
  intros Ht Hlen. unfold socks5_address_parse. rewrite Ht.
  codec_constants. settle_tests. reflexivity.
Qed.

Lemma parse_domainname (d : memory) (len : Z) (out : socks5_address) :
  load8 d 0 = SOCKS5_ADDRTYPE_DOMAINNAME ->
  4 + load8 d 1 <= len ->
  socks5_address_parse (Some d) len (Some out) =
  mk_parse_result true
    (Some (mk_socks5_address
             (memcpy (memset0 sizeof_domainname)
                (load_bytes d 2 (Z.to_nat (load8 d 1))))
             (load16_be d (2 + load8 d 1)) SOCKS5_ADDRTYPE_DOMAINNAME))
    ([0; 1] ++ offsets 2 (Z.to_nat (load8 d 1))
       ++ offsets (2 + load8 d 1) 2).
Proof.
  intros Ht Hlen. pose proof (load8_is_byte d 1) as Hb. unfold is_byte in Hb.
  unfold socks5_address_parse. rewrite Ht.
  codec_constants. cbv zeta. change (0 + 1 + 1) with 2. change (0 + 1) with 1.
  settle_tests.
  unfold parse_port. cbn [set_addr set_addr_type set_port addr port addr_type].
  rewrite <- app_assoc. reflexivity.
Qed.

Lemma cons_inv {A} (x y : A) (l l' : list A) :
  x :: l = y :: l' -> x = y /\ l = l'.
Proof. intros E. inversion E. split; reflexivity. Qed.

Lemma load_bytes_S (m : memory) (off : Z) (n : nat) :
  load_bytes m off (S n) = load8 m off :: load_bytes m (off + 1) n.
Proof. reflexivity. Qed.

(** ** Round trip, one kind at a time *)

Lemma roundtrip_ipv4 (a out : socks5_address) (buffer : memory)
    (size len : Z) :
  valid_address a -> addr_type a = SOCKS5_ADDRTYPE_IPV4 ->
  socks5_address_size (Some a) <= size ->
  socks5_address_size (Some a) <= len ->
  roundtrip a out buffer size len.
Proof.
  intros Hv Ht Hsize Hlen. pose proof Hv as (Hul & Hbytes & Hport & _).
  unfold roundtrip.
  assert (Hsz : socks5_address_size (Some a) = 7)
    by (unfold socks5_address_size; rewrite Ht; reflexivity).
  rewrite Hsz in *. cbv zeta.
  rewrite (binary_ipv4 a buffer size Ht Hsize).
  cbn [binary_ret binary_buffer binary_writes].
  assert (Hb : length (firstn 4 (addr a)) = 4%nat)
    by (apply (length_firstn_addr a 4 Hv); lia).
  destruct (encoded_memory buffer 1 (port a) (firstn 4 (addr a)))
    as (Htag & Hbody & Hp); try assumption.
  { unfold is_byte; lia. }
  { apply Forall_firstn_byte; assumption. }
  rewrite Hb in *. change (1 + Z.of_nat 4) with 5 in *.
  rewrite (parse_ipv4 _ len out Htag Hlen).
  cbn [parse_ret parse_addr parse_reads]. rewrite Hbody, Hp.
  repeat split; try (apply offsets_in_bounds; lia).
  eexists. split; [reflexivity|]. cbn [addr_type port].
  repeat split; [symmetry; exact Ht|].
  unfold payload. cbn [addr_type addr]. rewrite Ht.
  change (SOCKS5_ADDRTYPE_IPV4 =? SOCKS5_ADDRTYPE_IPV4) with true.
  cbv iota. unfold memcpy. apply firstn_app_exact. exact Hb.
Qed.

Lemma roundtrip_ipv6 (a out : socks5_address) (buffer : memory)
    (size len : Z) :
  valid_address a -> addr_type a = SOCKS5_ADDRTYPE_IPV6 ->
  socks5_address_size (Some a) <= size ->
  socks5_address_size (Some a) <= len ->
  roundtrip a out buffer size len.
Proof.
  intros Hv Ht Hsize Hlen. pose proof Hv as (Hul & Hbytes & Hport & _).
  unfold roundtrip.
  assert (Hsz : socks5_address_size (Some a) = 19)
    by (unfold socks5_address_size; rewrite Ht; reflexivity).
  rewrite Hsz in *. cbv zeta.
  rewrite (binary_ipv6 a buffer size Ht Hsize).
  cbn [binary_ret binary_buffer binary_writes].
  assert (Hb : length (firstn 16 (addr a)) = 16%nat)
    by (apply (length_firstn_addr a 16 Hv); lia).
  destruct (encoded_memory buffer 4 (port a) (firstn 16 (addr a)))
    as (Htag & Hbody & Hp); try assumption.
  { unfold is_byte; lia. }
  { apply Forall_firstn_byte; assumption. }
  rewrite Hb in *. change (1 + Z.of_nat 16) with 17 in *.
  rewrite (parse_ipv6 _ len out Htag Hlen).
  cbn [parse_ret parse_addr parse_reads]. rewrite Hbody, Hp.
  repeat split; try (apply offsets_in_bounds; lia).
  eexists. split; [reflexivity|]. cbn [addr_type port].
  repeat split; [symmetry; exact Ht|].
  unfold payload. cbn [addr_type addr]. rewrite Ht.
  change (SOCKS5_ADDRTYPE_IPV6 =? SOCKS5_ADDRTYPE_IPV4) with false.
  change (SOCKS5_ADDRTYPE_IPV6 =? SOCKS5_ADDRTYPE_DOMAINNAME) with false.
  change (SOCKS5_ADDRTYPE_IPV6 =? SOCKS5_ADDRTYPE_IPV6) with true.
  cbv iota. unfold memcpy. apply firstn_app_exact. exact Hb.
Qed.

Lemma roundtrip_domainname (a out : socks5_address) (buffer : memory)
    (size len : Z) :
  valid_address a -> addr_type a = SOCKS5_ADDRTYPE_DOMAINNAME ->
  socks5_address_size (Some a) <= size ->
  socks5_address_size (Some a) <= len ->
  roundtrip a out buffer size len.
Proof.
  intros Hv Ht Hsize Hlen. pose proof Hv as (Hul & Hbytes & Hport & _).
  pose proof (strlen_byte a Hv Ht) as Hn. unfold roundtrip.
  set (n := strlen (addr a)) in *.
  assert (Hsz : socks5_address_size (Some a) = 4 + n).
  { unfold socks5_address_size. rewrite Ht. codec_constants.
    change (3 =? 1) with false. change (3 =? 3) with true. cbv iota.
    fold n. lia. }
  rewrite Hsz in *. cbv zeta.
  rewrite (binary_domainname a buffer size Ht Hsize). fold n.
  cbn [binary_ret binary_buffer binary_writes].
  assert (Hb : length (firstn (Z.to_nat n) (addr a)) = Z.to_nat n).
  { apply (length_firstn_addr a n Hv). unfold is_byte in Hn. lia. }
  destruct (encoded_memory buffer 3 (port a)
              (n :: firstn (Z.to_nat n) (addr a)))
    as (Htag & Hbody & Hp); try assumption.
  { unfold is_byte; lia. }
  { constructor; [exact Hn | apply Forall_firstn_byte; assumption]. }
  cbn [length] in Htag, Hbody, Hp. rewrite Hb in Htag, Hbody, Hp.
  replace (1 + Z.of_nat (S (Z.to_nat n))) with (2 + n) in *
    by (unfold is_byte in Hn; lia).
  set (m := store16_be _ _ _) in *.
  rewrite load_bytes_S in Hbody. change (1 + 1) with 2 in Hbody.
  destruct (cons_inv _ _ _ _ Hbody) as [Hlen8 Hname].
  assert (Hlen' : 4 + load8 m 1 <= len) by (rewrite Hlen8; exact Hlen).
  rewrite (parse_domainname m len out Htag Hlen').
  cbn [parse_ret parse_addr parse_reads]. rewrite Hlen8, Hname, Hp.
  assert (Hio : in_bounds (4 + n)
                  ([0; 1] ++ offsets 2 (Z.to_nat n) ++ offsets (2 + n) 2)).
  { unfold is_byte in Hn.
    apply in_bounds_app; [repeat constructor; lia|].
    apply in_bounds_app; apply offsets_in_bounds; lia. }
  repeat split; try exact Hio.
  { rewrite !length_app, !length_offsets. cbn [length].
    unfold is_byte in Hn. lia. }
  eexists. split; [reflexivity|]. cbn [addr_type port].
  repeat split; [symmetry; exact Ht|].
  unfold payload. cbn [addr_type addr]. rewrite Ht.
  change (SOCKS5_ADDRTYPE_DOMAINNAME =? SOCKS5_ADDRTYPE_IPV4) with false.
  change (SOCKS5_ADDRTYPE_DOMAINNAME =? SOCKS5_ADDRTYPE_DOMAINNAME) with true.
  cbv iota. fold n.
  assert (Hpad : exists k, skipn (Z.to_nat n) (memset0 sizeof_domainname)
                           = 0 :: repeat 0 k).
  { exists (255 - Z.to_nat n)%nat. unfold memset0, sizeof_domainname.
    unfold is_byte in Hn.
    replace (Z.to_nat 256) with (Z.to_nat n + S (255 - Z.to_nat n))%nat by lia.
    rewrite repeat_app, skipn_app, repeat_length, Nat.sub_diag.
    rewrite skipn_all2 by (rewrite repeat_length; lia). reflexivity. }
  destruct Hpad as (k & Hpad).
  unfold memcpy. rewrite Hb, Hpad.
  unfold n at 1. rewrite strlen_prefix_nul. fold n.
  apply firstn_app_exact. exact Hb.
Qed.

(** C1.  A valid target address (IPv4, IPv6, or a domain name that is NUL
    terminated inside its array) that is encoded into a buffer of at least
    [socks5_address_size] bytes is accepted: exactly [socks5_address_size]
    bytes are written, all inside that size, and parsing the buffer with
    any length that covers them succeeds and gives back the address type,
    the payload and the port, reading inside the encoded bytes only. *)
Theorem address_roundtrip (a out : socks5_address) (buffer : memory)
    (size len : Z) :
  valid_address a ->
  socks5_address_size (Some a) <= size ->
  socks5_address_size (Some a) <= len ->
  let e := socks5_address_binary (Some a) (Some buffer) size in
  let p := socks5_address_parse (binary_buffer e) len (Some out) in
  binary_ret e = true /\
  Z.of_nat (length (binary_writes e)) = socks5_address_size (Some a) /\
  in_bounds (socks5_address_size (Some a)) (binary_writes e) /\
  parse_ret p = true /\
  in_bounds (socks5_address_size (Some a)) (parse_reads p) /\
  exists out',
    parse_addr p = Some out' /\
    addr_type out' = addr_type a /\
    payload out' = payload a /\
    port out' = port a.
Proof.
  intros Hv Hsize Hlen.
  pose proof Hv as (_ & _ & _ & [Ht | [Ht | [Ht _]]]).
  - apply roundtrip_ipv4; assumption.
  - apply roundtrip_ipv6; assumption.
  - apply roundtrip_domainname; assumption.
Qed.

(** ** The wire scenarios of the specification *)

Example encode_ipv4_scenario :
  option_map (fun m => load_bytes m 0 7)
    (binary_buffer
       (socks5_address_binary
          (Some (mk_socks5_address (name_array [1; 2; 3; 4]) 80
                   SOCKS5_ADDRTYPE_IPV4))
          (Some (mem_of_list [])) 7))
  = Some [1; 1; 2; 3; 4; 0; 80].
Proof. reflexivity. Qed.

Example encode_domainname_scenario :
  option_map (fun m => load_bytes m 0 15)
    (binary_buffer
       (socks5_address_binary
          (Some (mk_socks5_address
                   (name_array [101; 120; 97; 109; 112; 108; 101; 46; 99; 111; 109])
                   443 SOCKS5_ADDRTYPE_DOMAINNAME))
          (Some (mem_of_list [])) 15))
  = Some [3; 11; 101; 120; 97; 109; 112; 108; 101; 46; 99; 111; 109; 1; 187].
Proof. vm_compute. reflexivity. Qed.

Example parse_ipv4_scenario :
  option_map (fun a => (addr_type a, payload a, port a))
    (parse_addr
       (socks5_address_parse (Some (mem_of_list [1; 1; 2; 3; 4; 0; 80])) 7
          (Some (mk_socks5_address (memset0 sizeof_domainname) 0
                   SOCKS5_ADDRTYPE_INVALID))))
  = Some (SOCKS5_ADDRTYPE_IPV4, [1; 2; 3; 4], 80).
Proof. vm_compute. reflexivity. Qed.

(** ** Concrete addresses *)

Lemma Forall_is_byte_check (l : list Z) :
  forallb (fun b => (0 <=? b) && (b <? 256)) l = true -> Forall is_byte l.
Proof.
  intros Hc. apply Forall_forall. intros x Hx.
  rewrite forallb_forall in Hc. specialize (Hc x Hx).
  apply andb_prop in Hc. unfold is_byte. lia.
Qed.

Lemma address_roundtrip_witness :
  roundtrip
    (mk_socks5_address
       (name_array [101; 120; 97; 109; 112; 108; 101; 46; 99; 111; 109])
       443 SOCKS5_ADDRTYPE_DOMAINNAME)
    (mk_socks5_address (memset0 sizeof_domainname) 0 SOCKS5_ADDRTYPE_INVALID)
    (mem_of_list []) 15 15.
Proof.
  apply (address_roundtrip
           (mk_socks5_address
              (name_array [101; 120; 97; 109; 112; 108; 101; 46; 99; 111; 109])
              443 SOCKS5_ADDRTYPE_DOMAINNAME)).
  - unfold valid_address. cbn [addr port addr_type].
    split; [reflexivity|].
    split; [apply Forall_is_byte_check; vm_compute; reflexivity|].
    split; [lia|].
    right; right. split; [reflexivity | vm_compute; reflexivity].
  - vm_compute. discriminate.
  - vm_compute. discriminate.
Defined.

(** ** Truncated input *)

(** The fixed-size kinds are checked before anything but the tag is read. *)
Lemma parse_truncated_ipv4 (d : memory) (len : Z) (out : socks5_address) :
  load8 d 0 = SOCKS5_ADDRTYPE_IPV4 -> 0 < len < 7 ->
  socks5_address_parse (Some d) len (Some out) =
  mk_parse_result false (Some out) [0].
Proof.
  intros Ht Hlen. unfold socks5_address_parse. rewrite Ht.
  codec_constants. settle_tests. reflexivity.
Qed.

Lemma parse_truncated_ipv6 (d : memory) (len : Z) (out : socks5_address) :
  load8 d 0 = SOCKS5_ADDRTYPE_IPV6 -> 0 < len < 19 ->
  socks5_address_parse (Some d) len (Some out) =
  mk_parse_result false (Some out) [0].
Proof.
  intros Ht Hlen. unfold socks5_address_parse. rewrite Ht.
  codec_constants. settle_tests. reflexivity.
Qed.

(** The length byte of a domain name is read before any test of [len]. *)
Lemma parse_truncated_domainname (d : memory) (len : Z) (out : socks5_address) :
  load8 d 0 = SOCKS5_ADDRTYPE_DOMAINNAME -> 0 < len < 4 + load8 d 1 ->
  socks5_address_parse (Some d) len (Some out) =
  mk_parse_result false (Some out) [0; 1].
Proof.
  intros Ht Hlen. unfold socks5_address_parse. rewrite Ht.
  codec_constants. cbv zeta. change (0 + 1) with 1.
  settle_tests. reflexivity.
Qed.

(** A truncated input of a fixed-size kind, and a truncated domain name of
    at least two bytes, are refused with every read inside the input. *)
Lemma parse_truncated_in_bounds (d : memory) (len : Z) (out : socks5_address) :
  0 < len ->
  (load8 d 0 = SOCKS5_ADDRTYPE_IPV4 /\ len < 7) \/
  (load8 d 0 = SOCKS5_ADDRTYPE_IPV6 /\ len < 19) \/
  (load8 d 0 = SOCKS5_ADDRTYPE_DOMAINNAME /\ 2 <= len < 4 + load8 d 1) ->
  parse_ret (socks5_address_parse (Some d) len (Some out)) = false /\
  in_bounds len (parse_reads (socks5_address_parse (Some d) len (Some out))).
Proof.
  intros Hpos [[Ht Hlen] | [[Ht Hlen] | [Ht Hlen]]].
  - rewrite parse_truncated_ipv4 by (auto; lia).
    split; [reflexivity | repeat constructor; lia].
  - rewrite parse_truncated_ipv6 by (auto; lia).
    split; [reflexivity | repeat constructor; lia].
  - rewrite parse_truncated_domainname by (auto; lia).
    split; [reflexivity | repeat constructor; lia].
Qed.

(** C2 at the input that holds the tag of a domain name and nothing else:
    the call fails, but it has read offset 1, one byte past the input. *)
Theorem parse_domainname_tag_only_reads_past_input :
  parse_ret
    (socks5_address_parse (Some (mem_of_list [3])) 1
       (Some (mk_socks5_address (memset0 sizeof_domainname) 0
                SOCKS5_ADDRTYPE_INVALID))) = false /\
  parse_reads
    (socks5_address_parse (Some (mem_of_list [3])) 1
       (Some (mk_socks5_address (memset0 sizeof_domainname) 0
                SOCKS5_ADDRTYPE_INVALID))) = [0; 1] /\
  ~ in_bounds 1
      (parse_reads
         (socks5_address_parse (Some (mem_of_list [3])) 1
            (Some (mk_socks5_address (memset0 sizeof_domainname) 0
                     SOCKS5_ADDRTYPE_INVALID)))).
Proof.
  rewrite parse_truncated_domainname.
  - cbn [parse_ret parse_reads]. repeat split.
    intros Hb. unfold in_bounds in Hb.
    inversion Hb as [|? ? _ Hrest]; subst.
    inversion Hrest as [|? ? H1 _]; subst. lia.
  - reflexivity.
  - pose proof (load8_is_byte (mem_of_list [3]) 1) as Hb.
    unfold is_byte in Hb. lia.
Qed.

(** ** Failure and the output struct *)

(** C3 as stated fails: on the unrecognized tag [05] the call returns
    [false] and the struct, of type IPv4 before, is no longer what it was. *)
Lemma parse_unrecognized_tag_writes_output :
  parse_ret
    (socks5_address_parse (Some (mem_of_list [5; 1; 2; 3; 4; 0; 80])) 7
       (Some (mk_socks5_address (memset0 sizeof_domainname) 0
                SOCKS5_ADDRTYPE_IPV4))) = false /\
  parse_addr
    (socks5_address_parse (Some (mem_of_list [5; 1; 2; 3; 4; 0; 80])) 7
       (Some (mk_socks5_address (memset0 sizeof_domainname) 0
                SOCKS5_ADDRTYPE_IPV4)))
  <> Some (mk_socks5_address (memset0 sizeof_domainname) 0
             SOCKS5_ADDRTYPE_IPV4).
Proof.
  split.
  - reflexivity.
  - intros E. apply (f_equal (option_map addr_type)) in E.
    vm_compute in E. discriminate E.
Qed.

(** C3, amended.  When [socks5_address_parse] fails, the struct behind
    [addr] is as it was, unless the failure is an unrecognized tag: then
    [addr_type] is set to [SOCKS5_ADDRTYPE_INVALID], and nothing else. *)
Theorem parse_failure_output (data : option memory) (len : Z)
    (addr_p : option socks5_address) :
  parse_ret (socks5_address_parse data len addr_p) = false ->
  (tag_rejected data len addr_p = false ->
   parse_addr (socks5_address_parse data len addr_p) = addr_p) /\
  (tag_rejected data len addr_p = true ->
   exists a, addr_p = Some a /\
     parse_addr (socks5_address_parse data len addr_p) =
     Some (set_addr_type a SOCKS5_ADDRTYPE_INVALID)).
Proof.
  unfold socks5_address_parse, tag_rejected, recognized.
  destruct data as [d|]; [|intros _; split; [reflexivity | discriminate]].
  destruct addr_p as [a|].
  2:{ destruct (len =? 0); intros _; (split; [reflexivity | discriminate]). }
  destruct (len =? 0); [intros _; split; [reflexivity | discriminate]|].
  cbv zeta. codec_constants.
  destruct (load8 d 0 =? 1).
  { destruct (len <? 1 + 4 + 2); [|discriminate].
    intros _. split; [reflexivity | discriminate]. }
  destruct (load8 d 0 =? 3).
  { destruct (len <? 1 + 1 + load8 d (0 + 1) + 2); [|discriminate].
    intros _. split; [reflexivity | discriminate]. }
  destruct (load8 d 0 =? 4).
  { destruct (len <? 1 + 16 + 2); [|discriminate].
    intros _. split; [reflexivity | discriminate]. }
  intros _. split; [discriminate|]. intros _. exists a. split; reflexivity.
Qed.

Lemma parse_failure_output_witness :
  parse_addr
    (socks5_address_parse (Some (mem_of_list [1; 1; 2; 3])) 4
       (Some (mk_socks5_address (memset0 sizeof_domainname) 80
                SOCKS5_ADDRTYPE_IPV6))) =
  Some (mk_socks5_address (memset0 sizeof_domainname) 80 SOCKS5_ADDRTYPE_IPV6).
Proof.
  apply (parse_failure_output (Some (mem_of_list [1; 1; 2; 3])) 4
           (Some (mk_socks5_address (memset0 sizeof_domainname) 80
                    SOCKS5_ADDRTYPE_IPV6))).
  - reflexivity.
  - reflexivity.
Defined.

(** ** The guards of the two entry points *)

(** C10.  With a NULL [data], a zero [len] or a NULL [addr],
    [socks5_address_parse] returns [false] and has read nothing (and the
    struct behind [addr] is as it was); with a NULL [addr], a NULL [buffer]
    or a zero [size], [socks5_address_binary] returns NULL and has written
    nothing. *)
Theorem codec_null_guards (data buffer : option memory) (len size : Z)
    (out addr_p : option socks5_address) :
  data = None \/ len = 0 \/ out = None ->
  addr_p = None \/ buffer = None \/ size = 0 ->
  socks5_address_parse data len out = mk_parse_result false out [] /\
  socks5_address_binary addr_p buffer size = mk_binary_result false buffer [].
Proof.
  intros Hp Hb. split.
  - unfold socks5_address_parse.
    destruct Hp as [-> | [-> | ->]]; [reflexivity | |].
    + destruct data; reflexivity.
    + destruct data; [destruct (len =? 0)|]; reflexivity.
  - unfold socks5_address_binary.
    destruct Hb as [-> | [-> | ->]]; [reflexivity | |].
    + destruct addr_p; reflexivity.
    + destruct addr_p; [destruct buffer|]; reflexivity.
Qed.

Lemma codec_null_guards_witness :
  socks5_address_parse (Some (mem_of_list [1; 1; 2; 3; 4; 0; 80])) 0
    (Some (mk_socks5_address (memset0 sizeof_domainname) 0 0))
  = mk_parse_result false
      (Some (mk_socks5_address (memset0 sizeof_domainname) 0 0)) [] /\
  socks5_address_binary
    (Some (mk_socks5_address (memset0 sizeof_domainname) 80
             SOCKS5_ADDRTYPE_IPV4))
    None 7
  = mk_binary_result false None [].
Proof.
  apply codec_null_guards.
  - right; left; reflexivity.
  - right; left; reflexivity.
Defined.

End CodecProofs.

(* ================================================================== *)
(** * Properties of the tunnel core *)
(* ================================================================== *)

Module TunnelProofs.
Import Tunnel.

(** ** Running the core *)

Ltac run :=
  unfold tunnel_shutdown, socket_close, tunnel_release, tunnel_add_ref,
    socket_timer_start, socket_timer_stop, tunnel_is_dead, call_required,
    call_hook, modify_sock, when, ASSERT, UNREACHABLE;
  unfold bind, ret, get_tunnel, modify_tunnel, emit, abort;
  cbn [tunnel trace terminated getaddrinfo_pending ref_count incoming outgoing
       sock set_sock set_terminated set_getaddrinfo_pending set_ref_count
       rdstate wrstate result set_rdstate set_wrstate set_result
       set_handle_data set_timer_data negb Bool.eqb].

Lemma int_wrap_small (z : Z) :
  - 2 ^ 31 <= z < 2 ^ 31 -> int_wrap z = z.
Proof.
  intros Hz. unfold int_wrap. rewrite Z.mod_small by lia. lia.
Qed.

Lemma socket_state_eqb_eq (a b : socket_state) :
  socket_state_eqb a b = true <-> a = b.
Proof. destruct a, b; simpl; split; congruence. Qed.

Lemma socket_state_eqb_neq (a b : socket_state) :
  socket_state_eqb a b = false <-> a <> b.
Proof. destruct a, b; simpl; split; congruence. Qed.

Lemma sock_set_sock (c : side) (s : socket_ctx) (t : tunnel_ctx) :
  sock (set_sock c s t) c = s.
Proof. destruct c; reflexivity. Qed.

(** ** [socket_close] *)

Lemma socket_close_open (c : side) (w : world) :
  open_socket (sock (tunnel w) c) ->
  socket_close c w =
  Ok tt (mk_world
           (set_ref_count
              (int_wrap (int_wrap (ref_count (tunnel w) + 1) + 1))
              (set_sock c (closed_ctx c (sock (tunnel w) c)) (tunnel w)))
           (trace w ++ [uv_close (tcp_handle c); uv_close (timer_handle c)])).
Proof.
  intros [Hrd Hwr]. apply socket_state_eqb_neq in Hrd, Hwr.
  run. rewrite Hrd, Hwr. cbn [negb].
  destruct w as [t tr], c; cbn [tunnel trace]; rewrite <- app_assoc; reflexivity.
Qed.

(** ** [tunnel_shutdown] *)

Lemma tunnel_shutdown_terminated (w : world) :
  terminated (tunnel w) = true -> tunnel_shutdown w = Ok tt w.
Proof. intros Ht. run. rewrite Ht. reflexivity. Qed.

Lemma tunnel_shutdown_live (w : world) :
  live (tunnel w) ->
  tunnel_shutdown w =
  Ok tt (mk_world (after_shutdown (tunnel w))
           (trace w ++ shutdown_events (tunnel w))).
Proof.
  intros (Ht & [Hrd Hwr] & [Hrd' Hwr']).
  apply socket_state_eqb_neq in Hrd, Hwr, Hrd', Hwr'.
  destruct w as [[term pend rc inc out] tr].
  cbn [tunnel terminated incoming outgoing] in *.
  subst term. unfold shutdown_events. cbn [getaddrinfo_pending].
  destruct pend; run; rewrite Hrd, Hwr; run; rewrite Hrd', Hwr'; run;
    rewrite <- !app_assoc; reflexivity.
Qed.

Lemma shutdowns_terminated (n : nat) (w : world) :
  terminated (tunnel w) = true -> shutdowns n w = Ok tt w.
Proof.
  intros Ht. induction n as [|n IH]; cbn [shutdowns].
  - reflexivity.
  - unfold bind. rewrite (tunnel_shutdown_terminated w Ht). exact IH.
Qed.

(** [tunnel_shutdown] returns with the flag set, or the process stops. *)
Lemma tunnel_shutdown_sets_terminated (w w' : world) :
  tunnel_shutdown w = Ok tt w' -> terminated (tunnel w') = true.
Proof.
  destruct w as [[term pend rc inc out] tr].
  destruct term.
  - run. intros E. inversion E. reflexivity.
  - destruct pend; run;
      destruct (socket_state_eqb (rdstate inc) socket_dead); run; try discriminate;
      destruct (socket_state_eqb (wrstate inc) socket_dead); run; try discriminate;
      destruct (socket_state_eqb (rdstate out) socket_dead); run; try discriminate;
      destruct (socket_state_eqb (wrstate out) socket_dead); run; try discriminate;
      intros E; inversion E; reflexivity.
Qed.

(** C5.  [tunnel_shutdown] on a session whose [terminated] flag is set
    returns at once: the session and the log of calls are what they were,
    so nothing is closed, released or counted, and the same holds of any
    number of calls in a row. *)
Theorem shutdown_idempotent (w : world) (n : nat) :
  terminated (tunnel w) = true ->
  tunnel_shutdown w = Ok tt w /\ shutdowns n w = Ok tt w.
Proof.
  intros Ht. split.
  - apply tunnel_shutdown_terminated. exact Ht.
  - apply shutdowns_terminated. exact Ht.
Qed.

Lemma shutdown_idempotent_witness :
  tunnel_shutdown terminated_world = Ok tt terminated_world /\
  shutdowns 3 terminated_world = Ok tt terminated_world.
Proof. apply shutdown_idempotent. reflexivity. Defined.

(** The calls that follow a first call that has returned change nothing. *)
Lemma shutdowns_after_first (w0 w1 : world) (n : nat) :
  tunnel_shutdown w0 = Ok tt w1 -> shutdowns n w1 = Ok tt w1.
Proof.
  intros E. apply shutdowns_terminated.
  apply (tunnel_shutdown_sets_terminated w0). exact E.
Qed.

(** ** [tunnel_release] and the close completions *)

Lemma world_eta (w : world) : mk_world (tunnel w) (trace w) = w.
Proof. destruct w; reflexivity. Qed.

Lemma set_ref_count_same (t : tunnel_ctx) :
  set_ref_count (ref_count t) t = t.
Proof. destruct t; reflexivity. Qed.

Lemma tunnel_release_counts_down (H : tunnel_hooks) (w : world) :
  1 < ref_count (tunnel w) <= INT_MAX ->
  tunnel_release H w =
  Ok tt (mk_world (set_ref_count (ref_count (tunnel w) - 1) (tunnel w)) (trace w)).
Proof.
  unfold INT_MAX. intros Hrc. run.
  rewrite int_wrap_small by lia.
  destruct (Z.eqb_spec (ref_count (tunnel w) - 1) 0); [lia | reflexivity].
Qed.

Lemma tunnel_release_last (H : tunnel_hooks) (w : world) :
  ref_count (tunnel w) = 1 ->
  tunnel_release H w =
  Ok tt (mk_world (after_release H (tunnel w)) (trace w ++ destroy_events H)).
Proof.
  intros Hrc. unfold after_release, destroy_events. run. rewrite Hrc.
  change (int_wrap (1 - 1)) with 0. cbn [Z.eqb].
  destruct (tunnel_dying H); run; rewrite <- !app_assoc; reflexivity.
Qed.

Lemma set_ref_count_twice (n m : Z) (t : tunnel_ctx) :
  set_ref_count n (set_ref_count m t) = set_ref_count n t.
Proof. reflexivity. Qed.

Lemma ref_count_set_ref_count (n : Z) (t : tunnel_ctx) :
  ref_count (set_ref_count n t) = n.
Proof. reflexivity. Qed.

Lemma sock_set_ref_count (n : Z) (t : tunnel_ctx) (c : side) :
  sock (set_ref_count n t) c = sock t c.
Proof. destruct c; reflexivity. Qed.

Lemma has_data_set_ref_count (n : Z) (t : tunnel_ctx) (h : uv_handle) :
  has_data t h -> has_data (set_ref_count n t) h.
Proof. destruct h as [[|]|[|]]; exact (fun Hd => Hd). Qed.

Lemma socket_close_done_cb_release (H : tunnel_hooks) (h : uv_handle) (w : world) :
  has_data (tunnel w) h -> socket_close_done_cb H h w = tunnel_release H w.
Proof.
  unfold has_data, socket_close_done_cb, bind, get_tunnel. intros Hd.
  destruct (data_of (tunnel w) h); [reflexivity | contradiction].
Qed.

Lemma close_completions_count_down (H : tunnel_hooks) (hs : list uv_handle) :
  forall w : world,
    Forall (has_data (tunnel w)) hs ->
    Z.of_nat (length hs) < ref_count (tunnel w) <= INT_MAX ->
    close_completions H hs w =
    Ok tt (mk_world
             (set_ref_count (ref_count (tunnel w) - Z.of_nat (length hs)) (tunnel w))
             (trace w)).
Proof.
  induction hs as [|h hs IH]; intros w Hd Hrc;
    cbn [close_completions length] in *.
  - unfold ret. rewrite Z.sub_0_r, set_ref_count_same, world_eta. reflexivity.
  - inversion Hd as [|? ? Hh Hrest]; subst.
    unfold bind. rewrite socket_close_done_cb_release by exact Hh.
    rewrite tunnel_release_counts_down by lia.
    rewrite IH; cbn [tunnel trace].
    + rewrite set_ref_count_twice, ref_count_set_ref_count.
      do 3 f_equal. lia.
    + eapply Forall_impl; [|exact Hrest].
      intros a Ha. apply has_data_set_ref_count. exact Ha.
    + rewrite ref_count_set_ref_count. lia.
Qed.

Lemma close_completions_app (H : tunnel_hooks) (l1 l2 : list uv_handle) (w : world) :
  close_completions H (l1 ++ l2) w =
  bind (close_completions H l1) (fun _ => close_completions H l2) w.
Proof.
  revert w. induction l1 as [|h l1 IH]; intros w; cbn [close_completions app].
  - reflexivity.
  - unfold bind. destruct (socket_close_done_cb H h w) as [[] w'|w'].
    + rewrite IH. reflexivity.
    + reflexivity.
Qed.

Lemma close_completions_all (H : tunnel_hooks) (hs : list uv_handle) (w : world) :
  hs <> [] ->
  Forall (has_data (tunnel w)) hs ->
  ref_count (tunnel w) = Z.of_nat (length hs) ->
  ref_count (tunnel w) <= INT_MAX ->
  close_completions H hs w =
  Ok tt (mk_world (after_release H (tunnel w)) (trace w ++ destroy_events H)).
Proof.
  intros Hne Hd Hrc Hmax.
  destruct (exists_last Hne) as (front & h & ->).
  rewrite length_app in Hrc. cbn [length] in Hrc.
  apply Forall_app in Hd. destruct Hd as [Hfront Hh].
  inversion Hh as [|? ? Hh' _]; subst.
  rewrite close_completions_app. unfold bind.
  rewrite close_completions_count_down by (assumption || lia).
  cbn [close_completions]. unfold bind.
  rewrite socket_close_done_cb_release
    by (apply has_data_set_ref_count; exact Hh').
  rewrite tunnel_release_last
    by (cbn [tunnel]; rewrite ref_count_set_ref_count; lia).
  reflexivity.
Qed.

Lemma destructions_destroy (H : tunnel_hooks) (tr : list event) :
  destructions (tr ++ destroy_events H) = S (destructions tr).
Proof.
  unfold destructions, destroy_events. rewrite !filter_app, !length_app.
  destruct (tunnel_dying H); cbn; lia.
Qed.

Lemma dying_calls_destroy (H : tunnel_hooks) (tr : list event) :
  dying_calls (tr ++ destroy_events H) =
  (dying_calls tr + match tunnel_dying H with Some _ => 1 | None => 0 end)%nat.
Proof.
  unfold dying_calls, destroy_events. rewrite !filter_app, !length_app.
  destruct (tunnel_dying H); cbn; lia.
Qed.

Lemma close_requests_app (tr1 tr2 : list event) :
  close_requests (tr1 ++ tr2) = close_requests tr1 ++ close_requests tr2.
Proof.
  induction tr1 as [|e tr1 IH]; cbn [app close_requests].
  - reflexivity.
  - destruct e; try exact IH. cbn [app]. f_equal. exact IH.
Qed.

(** C4.  [socket_close] on an open socket raises the reference count by
    two and asks libuv for two closes, of the socket handle and of the
    timer, each after its own increment.  Of [N >= 1] outstanding closes,
    delivered in any order, each of the first [N - 1] completions lowers
    the count by one and does nothing else; the [N]-th brings it to zero,
    and then, and only then, [tunnel_dying] is called (once, when it is
    set) and the memory of the session is released (once). *)
Theorem refcount_correctness (H : tunnel_hooks) (w : world) (c : side)
    (w2 : world) (pending order : list uv_handle) :
  open_socket (sock (tunnel w) c) ->
  0 <= ref_count (tunnel w) <= INT_MAX - 2 ->
  pending <> [] ->
  ref_count (tunnel w2) = Z.of_nat (length pending) ->
  ref_count (tunnel w2) <= INT_MAX ->
  Forall (has_data (tunnel w2)) pending ->
  Permutation pending order ->
  (exists w',
     socket_close c w = Ok tt w' /\
     ref_count (tunnel w') = ref_count (tunnel w) + 2 /\
     close_requests (trace w') =
       close_requests (trace w) ++ [tcp_handle c; timer_handle c] /\
     closed_socket (sock (tunnel w') c)) /\
  (forall k, (k < length order)%nat ->
     exists wk,
       close_completions H (firstn k order) w2 = Ok tt wk /\
       ref_count (tunnel wk) = ref_count (tunnel w2) - Z.of_nat k /\
       trace wk = trace w2) /\
  (exists w',
     close_completions H order w2 = Ok tt w' /\
     tunnel w' = after_release H (tunnel w2) /\
     trace w' = trace w2 ++ destroy_events H /\
     destructions (trace w') = S (destructions (trace w2)) /\
     dying_calls (trace w') =
       (dying_calls (trace w2)
        + match tunnel_dying H with Some _ => 1 | None => 0 end)%nat).
Proof.
  intros Hopen Hrc Hne Hn Hmax Hdata Hperm. unfold INT_MAX in *.
  assert (Hlen : length order = length pending)
    by (symmetry; apply Permutation_length; exact Hperm).
  assert (Hdata' : Forall (has_data (tunnel w2)) order)
    by (eapply Permutation_Forall; eassumption).
  split; [|split].
  - eexists. split; [apply socket_close_open; exact Hopen|].
    cbn [tunnel trace]. repeat split.
    + rewrite ref_count_set_ref_count, !int_wrap_small;
        rewrite ?int_wrap_small; lia.
    + rewrite close_requests_app. reflexivity.
    + rewrite sock_set_ref_count, sock_set_sock. reflexivity.
    + rewrite sock_set_ref_count, sock_set_sock. reflexivity.
  - intros k Hk. eexists. split.
    + apply close_completions_count_down.
      * rewrite <- (firstn_skipn k order) in Hdata'.
        apply Forall_app in Hdata'. apply Hdata'.
      * rewrite length_firstn. unfold INT_MAX. lia.
    + cbn [tunnel trace]. rewrite length_firstn, ref_count_set_ref_count.
      split; [lia | reflexivity].
  - eexists. split.
    + apply close_completions_all; try assumption; try (unfold INT_MAX; lia).
      intros ->. apply Permutation_sym, Permutation_nil in Hperm.
      contradiction.
    + cbn [tunnel trace]. repeat split.
      * apply destructions_destroy.
      * apply dying_calls_destroy.
Qed.

(** The closes [tunnel_shutdown] requests of a live session that nothing
    else refers to, completed in any order, destroy it. *)
Lemma shutdown_then_close_completions (H : tunnel_hooks) (w : world)
    (order : list uv_handle) :
  live (tunnel w) ->
  ref_count (tunnel w) = 0 ->
  Permutation
    [tcp_handle Incoming; timer_handle Incoming;
     tcp_handle Outgoing; timer_handle Outgoing] order ->
  bind tunnel_shutdown (fun _ => close_completions H order) w =
  Ok tt (mk_world (after_release H (after_shutdown (tunnel w)))
           ((trace w ++ shutdown_events (tunnel w)) ++ destroy_events H)).
Proof.
  intros Hlive Hrc Hperm. unfold bind.
  rewrite (tunnel_shutdown_live w Hlive).
  apply close_completions_all; cbn [tunnel].
  - intros ->. apply Permutation_sym, Permutation_nil in Hperm.
    discriminate Hperm.
  - eapply Permutation_Forall; [exact Hperm|].
    repeat constructor; discriminate.
  - rewrite <- (Permutation_length Hperm).
    unfold after_shutdown. rewrite Hrc. reflexivity.
  - unfold after_shutdown. rewrite Hrc. unfold INT_MAX. cbn. lia.
Qed.

Lemma refcount_correctness_witness :
  exists w',
    close_completions (idle_hooks false)
      (rev [tcp_handle Incoming; timer_handle Incoming;
            tcp_handle Outgoing; timer_handle Outgoing])
      terminated_world = Ok tt w' /\
    destructions (trace w') = 1%nat /\
    dying_calls (trace w') = 1%nat.
Proof.
  destruct (refcount_correctness (idle_hooks false) fresh_world Incoming
              terminated_world
              [tcp_handle Incoming; timer_handle Incoming;
               tcp_handle Outgoing; timer_handle Outgoing]
              (rev [tcp_handle Incoming; timer_handle Incoming;
                    tcp_handle Outgoing; timer_handle Outgoing]))
    as (_ & _ & w' & Hrun & _ & _ & Hd & Hc).
  - split; discriminate.
  - unfold INT_MAX. cbn. lia.
  - discriminate.
  - reflexivity.
  - unfold INT_MAX. cbn. lia.
  - repeat constructor; discriminate.
  - apply Permutation_rev.
  - exists w'. repeat split; assumption.
Defined.

(** ** Completions on a terminated session *)

Section Completions.

Variable K : uv_constants.
Variable H : tunnel_hooks.

Lemma read_done_terminated (c : side) (nread buf_base : Z) (w : world) :
  terminated (tunnel w) = true ->
  socket_read_done_cb K H c nread buf_base w = Ok tt w.
Proof. intros Ht. unfold socket_read_done_cb. run. rewrite Ht. reflexivity. Qed.

Lemma write_done_terminated (c : side) (status : Z) (w : world) :
  terminated (tunnel w) = true ->
  socket_write_done_cb K H c status w =
  Ok tt (mk_world (tunnel w) (trace w ++ [free write_req])).
Proof. intros Ht. unfold socket_write_done_cb. run. rewrite Ht. reflexivity. Qed.

Lemma terminated_with_result (c : side) (r : Z) (t : tunnel_ctx) :
  terminated (with_result c r t) = terminated t.
Proof. destruct c; reflexivity. Qed.

Lemma connect_done_terminated (c : side) (status : Z) (w : world) :
  terminated (tunnel w) = true ->
  socket_connect_done_cb K H c status w =
  Ok tt (mk_world (with_result c status (tunnel w)) (trace w)).
Proof.
  intros Ht. unfold socket_connect_done_cb. run.
  fold (with_result c status (tunnel w)).
  rewrite terminated_with_result, Ht. reflexivity.
Qed.

Lemma getaddrinfo_done_terminated (c : side) (status : Z)
    (ai : option addrinfo) (w : world) :
  terminated (tunnel w) = true ->
  socket_getaddrinfo_done_cb K H c status ai w =
  Ok tt (mk_world
           (set_getaddrinfo_pending false (with_result c status (tunnel w)))
           (trace w)).
Proof.
  intros Ht. unfold socket_getaddrinfo_done_cb. run.
  fold (with_result c status (tunnel w)).
  rewrite terminated_with_result, Ht. reflexivity.
Qed.

Lemma timer_expire_terminated (c : side) (w : world) :
  terminated (tunnel w) = true ->
  socket_timer_expire_cb K H c w =
  Ok tt (mk_world (with_result c (UV_ETIMEDOUT K) (tunnel w)) (trace w)).
Proof.
  intros Ht. unfold socket_timer_expire_cb. run.
  fold (with_result c (UV_ETIMEDOUT K) (tunnel w)).
  rewrite terminated_with_result, Ht. reflexivity.
Qed.

End Completions.

Lemma states_with_result (c : side) (r : Z) (t : tunnel_ctx) :
  states (with_result c r t) = states t.
Proof. destruct c; reflexivity. Qed.

Lemma ref_count_with_result (c : side) (r : Z) (t : tunnel_ctx) :
  ref_count (with_result c r t) = ref_count t.
Proof. destruct c; reflexivity. Qed.

Lemma result_with_result (c : side) (r : Z) (t : tunnel_ctx) :
  result (sock (with_result c r t) c) = r.
Proof. destruct c; reflexivity. Qed.

Lemma calls_app (tr1 tr2 : list event) :
  calls (tr1 ++ tr2) = calls tr1 ++ calls tr2.
Proof. apply filter_app. Qed.

(** C6 at a session that has been shut down and whose connect the shutdown
    has cancelled: the completion is to change nothing, but it stores its
    status, [UV_ECANCELED], on the socket, whose result was [0] before; the
    store of [socket_connect_done_cb] comes before its test of the flag. *)
Lemma terminated_connect_completion_stores_result :
  terminated (tunnel terminated_world) = true /\
  result (sock (tunnel terminated_world) Outgoing) = 0 /\
  exists w',
    socket_connect_done_cb linux_constants (idle_hooks false) Outgoing
      (UV_ECANCELED linux_constants) terminated_world = Ok tt w' /\
    result (sock (tunnel w') Outgoing) = -125 /\
    tunnel w' <> tunnel terminated_world.
Proof.
  split; [reflexivity|]. split; [reflexivity|].
  eexists. split; [reflexivity|]. split; [reflexivity|].
  cbn. intros E. discriminate E.
Qed.

(** What the completion callbacks do on a session whose [terminated] flag
    is set, as long as its memory is still allocated: each returns without
    calling a hook and without asking anything of libuv, and leaves the
    flag, the reference count and the read- and write-states as they are.
    The read completion changes nothing and the write completion only
    releases its request; the connect, resolve and timer callbacks store
    their result code on the socket, and the resolve callback clears
    [getaddrinfo_pending], before they test the flag. *)
Theorem terminated_completions (K : uv_constants) (H : tunnel_hooks)
    (c : side) (nread buf_base status : Z) (ai : option addrinfo) (w : world) :
  terminated (tunnel w) = true ->
  socket_read_done_cb K H c nread buf_base w = Ok tt w /\
  socket_write_done_cb K H c status w =
    Ok tt (mk_world (tunnel w) (trace w ++ [free write_req])) /\
  socket_connect_done_cb K H c status w =
    Ok tt (mk_world (with_result c status (tunnel w)) (trace w)) /\
  socket_getaddrinfo_done_cb K H c status ai w =
    Ok tt (mk_world
             (set_getaddrinfo_pending false (with_result c status (tunnel w)))
             (trace w)) /\
  socket_timer_expire_cb K H c w =
    Ok tt (mk_world (with_result c (UV_ETIMEDOUT K) (tunnel w)) (trace w)) /\
  Forall (left_alone w)
    [socket_read_done_cb K H c nread buf_base w;
     socket_write_done_cb K H c status w;
     socket_connect_done_cb K H c status w;
     socket_getaddrinfo_done_cb K H c status ai w;
     socket_timer_expire_cb K H c w].
Proof.
  intros Ht.
  rewrite read_done_terminated, write_done_terminated, connect_done_terminated,
    getaddrinfo_done_terminated, timer_expire_terminated by exact Ht.
  repeat split.
  repeat constructor; eexists; (split; [reflexivity|]); cbn [tunnel trace];
    repeat split;
    try (rewrite calls_app, app_nil_r; reflexivity);
    try (rewrite close_requests_app, app_nil_r; reflexivity);
    try apply terminated_with_result;
    try apply ref_count_with_result;
    try apply states_with_result.
Qed.

Lemma terminated_completions_witness :
  socket_timer_expire_cb linux_constants (idle_hooks false) Incoming
    terminated_world =
  Ok tt (mk_world
           (with_result Incoming (UV_ETIMEDOUT linux_constants)
              (tunnel terminated_world))
           (trace terminated_world)).
Proof.
  apply (terminated_completions linux_constants (idle_hooks false) Incoming
           0 0 0 None terminated_world).
  reflexivity.
Defined.

(** ** The connect completion *)

Lemma live_with_result (c : side) (r : Z) (t : tunnel_ctx) :
  live t -> live (with_result c r t).
Proof. destruct c; exact (fun Hl => Hl). Qed.

Lemma calls_shutdown_events (t : tunnel_ctx) : calls (shutdown_events t) = [].
Proof. unfold shutdown_events. destruct (getaddrinfo_pending t); reflexivity. Qed.

Lemma sock_after_shutdown (t : tunnel_ctx) (c : side) :
  sock (after_shutdown t) c = closed_ctx c (sock t c).
Proof. destruct c; reflexivity. Qed.

Lemma connect_done_live (K : uv_constants) (H : tunnel_hooks) (c : side)
    (status : Z) (w : world) :
  terminated (tunnel w) = false ->
  socket_connect_done_cb K H c status w =
  bind (socket_timer_stop c)
    (fun _ =>
       if (status =? UV_ECANCELED K) || (status =? UV_ECONNREFUSED K)
       then tunnel_shutdown
       else call_required (on_outgoing_connected_done c)
              (tunnel_outgoing_connected_done H) c)
    (mk_world (with_result c status (tunnel w)) (trace w)).
Proof.
  intros Ht. unfold socket_connect_done_cb.
  unfold bind at 1 2, modify_sock, modify_tunnel, get_tunnel.
  cbn [tunnel trace]. fold (with_result c status (tunnel w)).
  unfold tunnel_is_dead. rewrite terminated_with_result, Ht. reflexivity.
Qed.

(** C7.  When the connect completion runs on a live session, the status is
    stored on the socket and the idle timer is stopped.  On [UV_ECANCELED]
    and [UV_ECONNREFUSED] the session is shut down and no hook is called;
    on every other status, success or failure, the hook
    [tunnel_outgoing_connected_done] is called, once, on the session that
    holds the status as the [result] of the socket. *)
Theorem connect_completion_policy (K : uv_constants) (H : tunnel_hooks)
    (f : tunnel_ctx -> side -> tunnel_ctx) (c : side) (status : Z) (w : world) :
  live (tunnel w) ->
  tunnel_outgoing_connected_done H = Some f ->
  result (sock (with_result c status (tunnel w)) c) = status /\
  if (status =? UV_ECANCELED K) || (status =? UV_ECONNREFUSED K) then
    socket_connect_done_cb K H c status w =
      Ok tt (mk_world (after_shutdown (with_result c status (tunnel w)))
               (trace w ++ uv_timer_stop c
                  :: shutdown_events (with_result c status (tunnel w)))) /\
    terminated (after_shutdown (with_result c status (tunnel w))) = true /\
    closed_socket (incoming (after_shutdown (with_result c status (tunnel w)))) /\
    closed_socket (outgoing (after_shutdown (with_result c status (tunnel w)))) /\
    calls (trace w ++ uv_timer_stop c
             :: shutdown_events (with_result c status (tunnel w)))
    = calls (trace w)
  else
    socket_connect_done_cb K H c status w =
      Ok tt (mk_world (f (with_result c status (tunnel w)) c)
               (trace w ++ [uv_timer_stop c;
                            call (on_outgoing_connected_done c)])).
Proof.
  intros Hlive Hf. split; [apply result_with_result|].
  pose proof Hlive as (Ht & _).
  rewrite (connect_done_live K H c status w Ht).
  unfold bind at 1, socket_timer_stop, emit. cbn [tunnel trace].
  destruct ((status =? UV_ECANCELED K) || (status =? UV_ECONNREFUSED K)).
  - rewrite tunnel_shutdown_live by (apply live_with_result; exact Hlive).
    cbn [tunnel trace]. rewrite <- app_assoc. repeat split.
    rewrite calls_app. cbn [app calls filter is_call].
    fold (calls (shutdown_events (with_result c status (tunnel w)))).
    rewrite calls_shutdown_events. apply app_nil_r.
  - rewrite Hf. run. rewrite <- app_assoc. reflexivity.
Qed.

Lemma connect_completion_policy_witness :
  socket_connect_done_cb linux_constants (idle_hooks false) Outgoing
    (UV_ETIMEDOUT linux_constants) fresh_world =
  Ok tt (mk_world (with_result Outgoing (-110) (tunnel fresh_world))
           [uv_timer_stop Outgoing; call (on_outgoing_connected_done Outgoing)]).
Proof.
  apply (connect_completion_policy linux_constants (idle_hooks false)
           (fun t _ => t) Outgoing (UV_ETIMEDOUT linux_constants) fresh_world).
  - repeat split; discriminate.
  - reflexivity.
Defined.

(** ** The read completion *)

(** C8.  A read completion of zero bytes on a live session stops the idle
    timer (and, outside streaming mode, the reading) and returns: the
    session is as it was, so the read-state and the result of the socket
    are unchanged and the session is not shut down, no hook is called and
    no close is requested.  The mode predicate [tunnel_is_on_the_fly] is
    the only collaborator code consulted. *)
Theorem zero_length_read_ignored (K : uv_constants) (H : tunnel_hooks)
    (c : side) (buf_base : Z) (w : world) :
  terminated (tunnel w) = false ->
  exists w',
    socket_read_done_cb K H c 0 buf_base w = Ok tt w' /\
    tunnel w' = tunnel w /\
    rdstate (sock (tunnel w') c) = rdstate (sock (tunnel w) c) /\
    result (sock (tunnel w') c) = result (sock (tunnel w) c) /\
    terminated (tunnel w') = false /\
    trace w' =
      trace w
      ++ (if tunnel_is_on_the_fly H (tunnel w) then [] else [uv_read_stop c])
      ++ [uv_timer_stop c] /\
    calls (trace w') = calls (trace w) /\
    close_requests (trace w') = close_requests (trace w).
Proof.
  intros Ht. unfold socket_read_done_cb. run. rewrite Ht.
  destruct (tunnel_is_on_the_fly H (tunnel w)); run;
    (eexists; split; [reflexivity|]); cbn [tunnel trace];
    repeat split; try exact Ht;
    rewrite <- ?app_assoc; try reflexivity;
    rewrite ?calls_app, ?close_requests_app; cbn; rewrite ?app_nil_r;
    reflexivity.
Qed.

Lemma zero_length_read_ignored_witness :
  exists w',
    socket_read_done_cb linux_constants (idle_hooks false) Incoming 0 0
      fresh_world = Ok tt w' /\
    tunnel w' = tunnel fresh_world.
Proof.
  destruct (zero_length_read_ignored linux_constants (idle_hooks false)
              Incoming 0 fresh_world) as (w' & Hrun & Htun & _).
  - reflexivity.
  - exists w'. split; assumption.
Defined.

(** ** The read- and write-states *)

Lemma socket_read_idle (c : side) (w : world) :
  rdstate (sock (tunnel w) c) = socket_stop ->
  socket_read c w =
  Ok tt (mk_world
           (set_sock c (set_rdstate socket_busy (sock (tunnel w) c)) (tunnel w))
           (trace w ++ [uv_read_start c;
                        uv_timer_start c (idle_timeout (sock (tunnel w) c))])).
Proof.
  intros Hs. unfold socket_read. run. rewrite Hs. cbn [socket_state_eqb].
  rewrite <- app_assoc. destruct c; reflexivity.
Qed.

Lemma socket_read_not_idle (c : side) (w : world) :
  rdstate (sock (tunnel w) c) <> socket_stop -> socket_read c w = Abort w.
Proof.
  intros Hs. apply socket_state_eqb_neq in Hs.
  unfold socket_read. run. rewrite Hs. reflexivity.
Qed.


Lemma socket_read_stop_any (c : side) (w : world) :
  socket_read_stop c w =
  Ok tt (mk_world
           (set_sock c (set_rdstate socket_stop (sock (tunnel w) c)) (tunnel w))
           (trace w ++ [uv_read_stop c])).
Proof. reflexivity. Qed.

Lemma socket_write_guarded (H : tunnel_hooks) (c : side) (w : world) :
  tunnel_is_on_the_fly H (tunnel w) = false ->
  wrstate (sock (tunnel w) c) <> socket_stop ->
  wrstate (sock (tunnel w) c) <> socket_done ->
  socket_write H c w = Abort w.
Proof.
  intros Hfly Hs Hd. apply socket_state_eqb_neq in Hs, Hd.
  unfold socket_write. run. rewrite Hfly, Hs, Hd. reflexivity.
Qed.






(** ** The teardown scenario of the specification *)

(** A session whose [init_done_cb] refuses is shut down by
    [tunnel_initialize]; the four close completions then destroy it, and no
    read has been started. *)
Example refused_session_is_destroyed :
  match bind (tunnel_initialize 60000 (Some (fun t => (false, t))))
          (fun _ => close_completions (idle_hooks false)
                      [timer_handle Outgoing; tcp_handle Incoming;
                       tcp_handle Outgoing; timer_handle Incoming])
          fresh_world with
  | Ok _ w' =>
      dying_calls (trace w') = 1%nat /\ destructions (trace w') = 1%nat /\
      ~ In (uv_read_start Incoming) (trace w')
  | Abort _ => False
  end.
Proof.
  vm_compute. repeat split.
  intros Hin. repeat (destruct Hin as [Hin | Hin]; [discriminate Hin|]).
  exact Hin.
Qed.

End TunnelProofs.

(* ================================================================== *)
(** * More properties of the address codec *)
(* ================================================================== *)

Module CodecMore.
Import Codec CodecProofs.

(** ** Where the encoder writes *)

Lemma in_bounds_nil (len : Z) : in_bounds len [].
Proof. constructor. Qed.

(** [socks5_address_binary] never writes outside the [size] bytes it was
    given, whatever the address, accepted or not. *)
Theorem binary_writes_in_bounds (addr_p : option socks5_address)
    (buffer : option memory) (size : Z) :
  0 <= size ->
  in_bounds size (binary_writes (socks5_address_binary addr_p buffer size)).
Proof.
  intros Hsize. unfold socks5_address_binary.
  destruct addr_p as [a|]; [|apply in_bounds_nil].
  destruct buffer as [b|]; [|apply in_bounds_nil].
  destruct (Z.eqb_spec size 0); [apply in_bounds_nil|].
  pose proof (strlen_bounds (addr a)) as Hs.
  unfold socks5_address_size, binary_port. codec_constants. cbv zeta.
  change (0 + 1 + 1) with 2. change (0 + 1) with 1.
  destruct (addr_type a =? 1).
  { destruct (Z.ltb_spec size (1 + 4 + 2)); [apply in_bounds_nil|].
    cbn [binary_writes]. repeat apply in_bounds_app;
      try (apply offsets_in_bounds; lia). repeat constructor; lia. }
  destruct (addr_type a =? 3).
  { destruct (Z.ltb_spec size (1 + 1 + strlen (addr a) + 2));
      [apply in_bounds_nil|].
    cbn [binary_writes]. repeat apply in_bounds_app;
      try (apply offsets_in_bounds; lia). repeat constructor; lia. }
  destruct (addr_type a =? 4).
  { destruct (Z.ltb_spec size (1 + 16 + 2)); [apply in_bounds_nil|].
    cbn [binary_writes]. repeat apply in_bounds_app;
      try (apply offsets_in_bounds; lia). repeat constructor; lia. }
  destruct (Z.ltb_spec size 0); [apply in_bounds_nil|].
  cbn [binary_writes]. repeat constructor; lia.
Qed.

Lemma binary_writes_in_bounds_witness :
  in_bounds 19
    (binary_writes
       (socks5_address_binary
          (Some (mk_socks5_address (name_array [1; 2; 3; 4]) 80
                   SOCKS5_ADDRTYPE_IPV4))
          (Some (mem_of_list [])) 19)).
Proof. apply binary_writes_in_bounds. lia. Defined.

(** ** When the encoder refuses *)

(** With an address, a buffer and a size that is not zero,
    [socks5_address_binary] returns the buffer exactly when the type is one
    of the three kinds and the size covers [socks5_address_size].  When it
    returns NULL for want of room the buffer is untouched; when it returns
    NULL because of the type, the byte at offset 0 has been overwritten
    with the type before. *)
Theorem binary_refusal (a : socks5_address) (b : memory) (size : Z) :
  0 < size ->
  (binary_ret (socks5_address_binary (Some a) (Some b) size) = true <->
   recognized (addr_type a) = true /\ socks5_address_size (Some a) <= size) /\
  (binary_ret (socks5_address_binary (Some a) (Some b) size) = false ->
   socks5_address_binary (Some a) (Some b) size =
   if recognized (addr_type a)
   then mk_binary_result false (Some b) []
   else mk_binary_result false (Some (store8 b 0 (addr_type a))) [0]).
Proof.
  intros Hsize. unfold socks5_address_binary, recognized.
  destruct (Z.eqb_spec size 0); [lia|].
  unfold socks5_address_size, binary_port. codec_constants. cbv zeta.
  destruct (addr_type a =? 1); [|destruct (addr_type a =? 3);
    [|destruct (addr_type a =? 4)]]; cbn [orb];
    match goal with
    | |- context [size <? ?k] => destruct (Z.ltb_spec size k)
    end; cbn [binary_ret]; (split; [split|]);
    try (intros E; discriminate E);
    try (intros [E1 E2]; (discriminate E1 || lia));
    try (intros _; split; [reflexivity | lia]);
    try (intros _; reflexivity);
    try lia.
Qed.

Lemma binary_refusal_witness :
  socks5_address_binary
    (Some (mk_socks5_address (memset0 sizeof_domainname) 80 9))
    (Some (mem_of_list [])) 7 =
  mk_binary_result false (Some (store8 (mem_of_list []) 0 9)) [0].
Proof.
  apply (binary_refusal (mk_socks5_address (memset0 sizeof_domainname) 80 9)
           (mem_of_list []) 7).
  - lia.
  - reflexivity.
Defined.

(** ** The encoded size *)

(** [socks5_address_size] is zero for a NULL address and for a type that is
    none of the three kinds, and for nothing else. *)
Theorem address_size_zero (addr_p : option socks5_address) :
  socks5_address_size addr_p = 0 <->
  addr_p = None \/
  exists a, addr_p = Some a /\ recognized (addr_type a) = false.
Proof.
  unfold socks5_address_size, recognized. destruct addr_p as [a|].
  2:{ split; [intros _; left; reflexivity | intros _; reflexivity]. }
  pose proof (strlen_bounds (addr a)) as Hs. codec_constants.
  assert (Hback : forall P : Prop,
            (Some a = None \/
             exists a', Some a = Some a' /\
               (addr_type a' =? 1) || (addr_type a' =? 3)
               || (addr_type a' =? 4) = false) ->
            (addr_type a =? 1) || (addr_type a =? 3) || (addr_type a =? 4) = true ->
            P).
  { intros P [E | (a' & Ea & E)] Ht; [discriminate E|].
    injection Ea as <-. rewrite Ht in E. discriminate E. }
  destruct (addr_type a =? 1) eqn:H1; [|destruct (addr_type a =? 3) eqn:H3;
    [|destruct (addr_type a =? 4) eqn:H4]]; cbn [orb] in *; split;
    try (intros E; lia);
    try (intros E; apply (Hback _ E); reflexivity).
  intros _. right. exists a. split; [reflexivity|].
  rewrite H1, H3, H4. reflexivity.
Qed.

(** ** Where the parser reads *)

(** On an input of at least one byte [socks5_address_parse] reads inside
    the [len] bytes it was given, whether it accepts the input or not, with
    one exception: the input that is the tag of a domain name and nothing
    else. *)
Theorem parse_reads_in_bounds (d : memory) (len : Z) (out : socks5_address) :
  0 < len ->
  (in_bounds len (parse_reads (socks5_address_parse (Some d) len (Some out)))
   <-> ~ (load8 d 0 = SOCKS5_ADDRTYPE_DOMAINNAME /\ len = 1)).
Proof.
  intros Hlen. pose proof (load8_is_byte d 1) as Hb. unfold is_byte in Hb.
  unfold socks5_address_parse, parse_port.
  destruct (Z.eqb_spec len 0); [lia|].
  codec_constants. cbv zeta. change (0 + 1 + 1) with 2. change (0 + 1) with 1.
  destruct (Z.eqb_spec (load8 d 0) 1) as [E1|E1].
  { destruct (Z.ltb_spec len (1 + 4 + 2)); cbn [parse_reads];
      (split; [intros _ [E _]; lia|]); intros _;
      repeat apply in_bounds_app; try (apply offsets_in_bounds; lia);
      repeat constructor; lia. }
  destruct (Z.eqb_spec (load8 d 0) 3) as [E3|E3].
  { destruct (Z.ltb_spec len (1 + 1 + load8 d 1 + 2)); cbn [parse_reads].
    - split.
      + intros Hin [_ ->]. unfold in_bounds in Hin.
        inversion Hin as [|? ? _ Hrest]; subst.
        inversion Hrest as [|? ? H1 _]; subst. lia.
      + intros Hne. assert (2 <= len) by (destruct (Z.eq_dec len 1); [tauto | lia]).
        repeat constructor; lia.
    - split; [intros _ [_ E]; lia|]. intros _.
      repeat apply in_bounds_app; try (apply offsets_in_bounds; lia);
        repeat constructor; lia. }
  destruct (Z.eqb_spec (load8 d 0) 4) as [E4|E4].
  { destruct (Z.ltb_spec len (1 + 16 + 2)); cbn [parse_reads];
      (split; [intros _ [E _]; lia|]); intros _;
      repeat apply in_bounds_app; try (apply offsets_in_bounds; lia);
      repeat constructor; lia. }
  cbn [parse_reads]. split; [intros _ [E _]; lia|]. intros _.
  repeat constructor; lia.
Qed.

Lemma parse_reads_in_bounds_witness :
  in_bounds 7
    (parse_reads
       (socks5_address_parse (Some (mem_of_list [3; 3; 101; 120; 97; 1; 187])) 7
          (Some (mk_socks5_address (memset0 sizeof_domainname) 0
                   SOCKS5_ADDRTYPE_INVALID)))).
Proof.
  apply parse_reads_in_bounds.
  - lia.
  - intros [_ E]. discriminate E.
Defined.

(** ** What the parser accepts *)

Lemma parse_accepts (d : memory) (len : Z) (out : socks5_address) :
  parse_ret (socks5_address_parse (Some d) len (Some out)) = true ->
  (load8 d 0 = SOCKS5_ADDRTYPE_IPV4 /\ 7 <= len) \/
  (load8 d 0 = SOCKS5_ADDRTYPE_DOMAINNAME /\ 4 + load8 d 1 <= len) \/
  (load8 d 0 = SOCKS5_ADDRTYPE_IPV6 /\ 19 <= len).
Proof.
  unfold socks5_address_parse. destruct (len =? 0); [discriminate|].
  codec_constants. cbv zeta. change (0 + 1) with 1.
  destruct (Z.eqb_spec (load8 d 0) 1).
  { destruct (Z.ltb_spec len (1 + 4 + 2)); [discriminate|]. left. lia. }
  destruct (Z.eqb_spec (load8 d 0) 3).
  { destruct (Z.ltb_spec len (1 + 1 + load8 d 1 + 2)); [discriminate|].
    right; left. lia. }
  destruct (Z.eqb_spec (load8 d 0) 4).
  { destruct (Z.ltb_spec len (1 + 16 + 2)); [discriminate|]. right; right. lia. }
  discriminate.
Qed.

Lemma Forall_load_bytes (n : nat) :
  forall (m : memory) (off : Z), Forall is_byte (load_bytes m off n).
Proof.
  induction n as [|n IH]; intros m off; cbn [load_bytes]; constructor.
  - apply load8_is_byte.
  - apply IH.
Qed.

Lemma load16_be_range (m : memory) (off : Z) : 0 <= load16_be m off < 65536.
Proof.
  unfold load16_be. pose proof (load8_is_byte m off) as H0.
  pose proof (load8_is_byte m (off + 1)) as H1. unfold is_byte in *. lia.
Qed.

Lemma Forall_skipn_byte (n : nat) (l : list Z) :
  Forall is_byte l -> Forall is_byte (skipn n l).
Proof.
  intros Hl. rewrite <- (firstn_skipn n l) in Hl.
  apply Forall_app in Hl. apply Hl.
Qed.

Lemma memset0_tail (n : nat) :
  (n < 256)%nat ->
  skipn n (memset0 sizeof_domainname) = 0 :: repeat 0 (255 - n).
Proof.
  intros Hn. unfold memset0, sizeof_domainname.
  replace (Z.to_nat 256) with (n + S (255 - n))%nat by lia.
  rewrite repeat_app, skipn_app, repeat_length, Nat.sub_diag.
  rewrite skipn_all2 by (rewrite repeat_length; lia). reflexivity.
Qed.

Lemma strlen_app_nul (l rest : list Z) :
  0 <= strlen (l ++ 0 :: rest) <= Z.of_nat (length l).
Proof.
  induction l as [|c l IH]; cbn [app strlen length].
  - change (0 =? 0) with true. cbv iota. lia.
  - destruct (c =? 0); lia.
Qed.

Lemma strlen_no_nul (l rest : list Z) :
  Forall (fun c => c <> 0) l ->
  strlen (l ++ 0 :: rest) = Z.of_nat (length l).
Proof.
  induction l as [|c l IH]; intros Hl; cbn [app strlen length].
  - reflexivity.
  - inversion Hl as [|? ? Hc Hrest]; subst.
    destruct (Z.eqb_spec c 0); [contradiction|]. rewrite IH by exact Hrest. lia.
Qed.

(** An accepted input leaves an address that is valid, given that the
    struct it is parsed into has a union of the declared size holding
    bytes, and that can be encoded again in no more than [len] bytes. *)
Theorem parse_gives_valid_address (d : memory) (len : Z) (out : socks5_address) :
  Z.of_nat (length (addr out)) = sizeof_domainname ->
  Forall is_byte (addr out) ->
  parse_ret (socks5_address_parse (Some d) len (Some out)) = true ->
  exists out',
    parse_addr (socks5_address_parse (Some d) len (Some out)) = Some out' /\
    valid_address out' /\
    socks5_address_size (Some out') <= len.
Proof.
  intros Hlen Hbytes Hok. unfold sizeof_domainname in Hlen.
  destruct (parse_accepts d len out Hok) as [[Ht Hl] | [[Ht Hl] | [Ht Hl]]].
  - rewrite (parse_ipv4 d len out Ht Hl). cbn [parse_addr].
    eexists. split; [reflexivity|]. split.
    + unfold valid_address. cbn [addr port addr_type]. repeat split.
      * unfold memcpy, sizeof_domainname.
        rewrite length_app, length_skipn, length_load_bytes. lia.
      * unfold memcpy. apply Forall_app. split;
          [apply Forall_load_bytes | apply Forall_skipn_byte; exact Hbytes].
      * apply load16_be_range.
      * apply load16_be_range.
      * left. reflexivity.
    + cbn. exact Hl.
  - pose proof (load8_is_byte d 1) as Hn. unfold is_byte in Hn.
    rewrite (parse_domainname d len out Ht Hl). cbn [parse_addr].
    eexists. split; [reflexivity|].
    assert (Hunion : memcpy (memset0 sizeof_domainname)
                       (load_bytes d 2 (Z.to_nat (load8 d 1)))
                     = load_bytes d 2 (Z.to_nat (load8 d 1))
                       ++ 0 :: repeat 0 (255 - Z.to_nat (load8 d 1))).
    { unfold memcpy. rewrite length_load_bytes, memset0_tail by lia.
      reflexivity. }
    pose proof (strlen_app_nul (load_bytes d 2 (Z.to_nat (load8 d 1)))
                  (repeat 0 (255 - Z.to_nat (load8 d 1)))) as Hs.
    rewrite length_load_bytes in Hs.
    split.
    + unfold valid_address. cbn [addr port addr_type]. rewrite Hunion.
      repeat split.
      * unfold sizeof_domainname. rewrite length_app. cbn [length].
        rewrite length_load_bytes, repeat_length. lia.
      * apply Forall_app. split; [apply Forall_load_bytes|].
        constructor; [unfold is_byte; lia|].
        apply Forall_forall. intros x Hx. apply repeat_spec in Hx.
        subst x. unfold is_byte. lia.
      * apply load16_be_range.
      * apply load16_be_range.
      * right; right. split; [reflexivity|]. unfold sizeof_domainname. lia.
    + unfold socks5_address_size. cbn [addr addr_type]. rewrite Hunion.
      codec_constants. change (3 =? 1) with false. change (3 =? 3) with true.
      cbv iota. lia.
  - rewrite (parse_ipv6 d len out Ht Hl). cbn [parse_addr].
    eexists. split; [reflexivity|]. split.
    + unfold valid_address. cbn [addr port addr_type]. repeat split.
      * unfold memcpy, sizeof_domainname.
        rewrite length_app, length_skipn, length_load_bytes. lia.
      * unfold memcpy. apply Forall_app. split;
          [apply Forall_load_bytes | apply Forall_skipn_byte; exact Hbytes].
      * apply load16_be_range.
      * apply load16_be_range.
      * right; left. reflexivity.
    + cbn. exact Hl.
Qed.

Lemma parse_gives_valid_address_witness :
  exists out',
    parse_addr
      (socks5_address_parse (Some (mem_of_list [1; 1; 2; 3; 4; 0; 80])) 7
         (Some (mk_socks5_address (memset0 sizeof_domainname) 0
                  SOCKS5_ADDRTYPE_INVALID))) = Some out' /\
    valid_address out' /\
    socks5_address_size (Some out') <= 7.
Proof.
  apply parse_gives_valid_address.
  - reflexivity.
  - apply Forall_is_byte_check. vm_compute. reflexivity.
  - reflexivity.
Defined.

(** ** Parsing, then encoding *)

Lemma load_bytes_app (n1 n2 : nat) :
  forall (m : memory) (off : Z),
    load_bytes m off (n1 + n2) =
    load_bytes m off n1 ++ load_bytes m (off + Z.of_nat n1) n2.
Proof.
  induction n1 as [|n1 IH]; intros m off.
  - cbn [Nat.add load_bytes app]. rewrite Z.add_0_r. reflexivity.
  - cbn [Nat.add load_bytes app]. rewrite IH. do 3 f_equal. lia.
Qed.

Lemma load16_be_bytes (m m' : memory) (q q' : Z) :
  load16_be m q = load16_be m' q' ->
  load_bytes m q 2 = load_bytes m' q' 2.
Proof.
  unfold load16_be. intros E. cbn [load_bytes].
  pose proof (load8_is_byte m q) as H0.
  pose proof (load8_is_byte m (q + 1)) as H1.
  pose proof (load8_is_byte m' q') as H2.
  pose proof (load8_is_byte m' (q' + 1)) as H3. unfold is_byte in *.
  assert (load8 m q = load8 m' q') as -> by lia.
  assert (load8 m (q + 1) = load8 m' (q' + 1)) as -> by lia.
  reflexivity.
Qed.

(** The bytes of a tag, a body and a port, laid out as the encoder does. *)
Lemma encoded_bytes (b d : memory) (body : list Z) :
  let n := length body in
  let q := 1 + Z.of_nat n in
  body = load_bytes d 1 n ->
  load_bytes
    (store16_be (store_bytes (store8 b 0 (load8 d 0)) 1 body) q (load16_be d q))
    0 (1 + n + 2)
  = load_bytes d 0 (1 + n + 2).
Proof.
  intros n q Hbody.
  destruct (encoded_memory b (load8 d 0) (load16_be d q) body)
    as (Htag & Hb & Hp).
  - apply load8_is_byte.
  - rewrite Hbody. apply Forall_load_bytes.
  - apply load16_be_range.
  - fold n q in Htag, Hb, Hp.
    change (1 + n + 2)%nat with (S (n + 2)). cbn [load_bytes].
    change (0 + 1) with 1. rewrite !load_bytes_app. fold q.
    rewrite Htag, Hb, <- Hbody. f_equal. f_equal.
    apply load16_be_bytes. exact Hp.
Qed.

(** The input an accepted parse has consumed comes back when the parsed
    address is encoded: the first [socks5_address_size] bytes of the
    encoder's buffer are those of the input.  For a domain name this asks
    that the name on the wire holds no NUL byte, since the encoder measures
    the name with [strlen]. *)
Theorem encode_after_parse (d b : memory) (len size : Z) (out : socks5_address) :
  parse_ret (socks5_address_parse (Some d) len (Some out)) = true ->
  (load8 d 0 = SOCKS5_ADDRTYPE_DOMAINNAME ->
   Forall (fun c => c <> 0) (load_bytes d 2 (Z.to_nat (load8 d 1)))) ->
  len <= size ->
  exists out' m,
    parse_addr (socks5_address_parse (Some d) len (Some out)) = Some out' /\
    socks5_address_size (Some out') <= len /\
    binary_ret (socks5_address_binary (Some out') (Some b) size) = true /\
    binary_buffer (socks5_address_binary (Some out') (Some b) size) = Some m /\
    load_bytes m 0 (Z.to_nat (socks5_address_size (Some out')))
    = load_bytes d 0 (Z.to_nat (socks5_address_size (Some out'))).
Proof.
  intros Hok Hname Hsize.
  destruct (parse_accepts d len out Hok) as [[Ht Hl] | [[Ht Hl] | [Ht Hl]]].
  - rewrite (parse_ipv4 d len out Ht Hl). cbn [parse_addr].
    do 2 eexists. split; [reflexivity|].
    rewrite binary_ipv4 by (reflexivity || lia).
    cbn [binary_ret binary_buffer addr port addr_type].
    split; [cbn; exact Hl|]. split; [reflexivity|]. split; [reflexivity|].
    unfold memcpy. rewrite firstn_app_exact by apply length_load_bytes.
    change (Z.to_nat _) with (1 + 4 + 2)%nat.
    rewrite <- Ht at 1.
    apply (encoded_bytes b d (load_bytes d 1 4)).
    rewrite length_load_bytes. reflexivity.
  - pose proof (load8_is_byte d 1) as Hn. unfold is_byte in Hn.
    specialize (Hname Ht).
    rewrite (parse_domainname d len out Ht Hl). cbn [parse_addr].
    set (n := load8 d 1) in *. set (name := load_bytes d 2 (Z.to_nat n)) in *.
    assert (Hln : length name = Z.to_nat n) by apply length_load_bytes.
    assert (Hunion : memcpy (memset0 sizeof_domainname) name
                     = name ++ 0 :: repeat 0 (255 - Z.to_nat n)).
    { unfold memcpy. rewrite Hln, memset0_tail by lia. reflexivity. }
    assert (Hstrlen : strlen (memcpy (memset0 sizeof_domainname) name) = n).
    { rewrite Hunion, strlen_no_nul by exact Hname. lia. }
    do 2 eexists. split; [reflexivity|].
    rewrite binary_domainname;
      cbn [binary_ret binary_buffer addr port addr_type];
      rewrite ?Hstrlen; try reflexivity; try lia.
    assert (Hsz : socks5_address_size
                    (Some {| addr := memcpy (memset0 sizeof_domainname) name;
                             port := load16_be d (2 + n);
                             addr_type := SOCKS5_ADDRTYPE_DOMAINNAME |})
                  = 4 + n).
    { unfold socks5_address_size. cbn [addr addr_type]. rewrite Hstrlen.
      codec_constants. change (3 =? 1) with false. change (3 =? 3) with true.
      cbv iota. lia. }
    rewrite Hsz. split; [exact Hl|]. split; [reflexivity|].
    split; [reflexivity|].
    rewrite Hunion, firstn_app_exact by exact Hln.
    replace (Z.to_nat (4 + n)) with (1 + S (Z.to_nat n) + 2)%nat by lia.
    assert (Hbody : n :: name = load_bytes d 1 (S (Z.to_nat n)))
      by reflexivity.
    pose proof (encoded_bytes b d (n :: name)) as Henc.
    cbn [length] in Henc. rewrite Hln in Henc.
    replace (1 + Z.of_nat (S (Z.to_nat n))) with (2 + n) in Henc by lia.
    change SOCKS5_ADDRTYPE_DOMAINNAME with 3 in Ht. rewrite <- Ht.
    apply Henc. exact Hbody.
  - rewrite (parse_ipv6 d len out Ht Hl). cbn [parse_addr].
    do 2 eexists. split; [reflexivity|].
    rewrite binary_ipv6 by (reflexivity || lia).
    cbn [binary_ret binary_buffer addr port addr_type].
    split; [cbn; exact Hl|]. split; [reflexivity|]. split; [reflexivity|].
    unfold memcpy. rewrite firstn_app_exact by apply length_load_bytes.
    change (Z.to_nat _) with (1 + 16 + 2)%nat.
    rewrite <- Ht at 1.
    apply (encoded_bytes b d (load_bytes d 1 16)).
    rewrite length_load_bytes. reflexivity.
Qed.

Lemma encode_after_parse_witness :
  exists out' m,
    parse_addr
      (socks5_address_parse (Some (mem_of_list [3; 3; 101; 120; 97; 1; 187])) 7
         (Some (mk_socks5_address (memset0 sizeof_domainname) 0
                  SOCKS5_ADDRTYPE_INVALID))) = Some out' /\
    socks5_address_size (Some out') <= 7 /\
    binary_ret (socks5_address_binary (Some out') (Some (mem_of_list [])) 7)
    = true /\
    binary_buffer (socks5_address_binary (Some out') (Some (mem_of_list [])) 7)
    = Some m /\
    load_bytes m 0 (Z.to_nat (socks5_address_size (Some out')))
    = load_bytes (mem_of_list [3; 3; 101; 120; 97; 1; 187]) 0
        (Z.to_nat (socks5_address_size (Some out'))).
Proof.
  apply encode_after_parse.
  - reflexivity.
  - intros _. repeat constructor; discriminate.
  - lia.
Defined.

Lemma address_size_zero_witness :
  socks5_address_size
    (Some (mk_socks5_address (memset0 sizeof_domainname) 80 9)) = 0.
Proof.
  apply address_size_zero. right.
  exists (mk_socks5_address (memset0 sizeof_domainname) 80 9).
  split; reflexivity.
Defined.

End CodecMore.

(* ================================================================== *)
(** * More properties of the tunnel core *)
(* ================================================================== *)

Module TunnelMore.
Import Tunnel TunnelProofs.

(** Runs the plumbing of a callback and stops at the functions it calls. *)
Ltac step :=
  unfold socket_timer_start, socket_timer_stop, tunnel_is_dead, call_required,
    call_hook, modify_sock, when, ASSERT, UNREACHABLE;
  unfold bind, ret, get_tunnel, modify_tunnel, emit, abort;
  cbn [tunnel trace terminated getaddrinfo_pending ref_count incoming outgoing
       sock set_sock set_terminated set_getaddrinfo_pending set_ref_count
       rdstate wrstate result set_rdstate set_wrstate set_result
       set_handle_data set_timer_data negb Bool.eqb].

(** ** [tunnel_initialize] *)

Lemma tunnel_initialize_runs (idle_timeout : Z)
    (cb : option (tunnel_ctx -> bool * tunnel_ctx)) (w : world) :
  tunnel_initialize idle_timeout cb w =
  (if fst (init_verdict idle_timeout cb)
   then socket_read Incoming else tunnel_shutdown)
    (mk_world (snd (init_verdict idle_timeout cb)) (trace w ++ init_events)).
Proof.
  unfold tunnel_initialize, init_verdict, init_events.
  unfold bind, modify_tunnel, emit, get_tunnel. cbn [tunnel trace].
  rewrite <- !app_assoc. cbn [app].
  destruct cb as [f|]; reflexivity.
Qed.

Lemma reads_started_app (tr1 tr2 : list event) :
  reads_started (tr1 ++ tr2) = (reads_started tr1 + reads_started tr2)%nat.
Proof. unfold reads_started. rewrite filter_app, length_app. reflexivity. Qed.

Lemma destructions_app (tr1 tr2 : list event) :
  destructions (tr1 ++ tr2) = (destructions tr1 + destructions tr2)%nat.
Proof. unfold destructions. rewrite filter_app, length_app. reflexivity. Qed.

Lemma reads_started_shutdown_events (t : tunnel_ctx) :
  reads_started (shutdown_events t) = 0%nat.
Proof. unfold shutdown_events. destruct (getaddrinfo_pending t); reflexivity. Qed.

Lemma destructions_shutdown_events (t : tunnel_ctx) :
  destructions (shutdown_events t) = 0%nat.
Proof. unfold shutdown_events. destruct (getaddrinfo_pending t); reflexivity. Qed.

Lemma reads_started_destroy_events (H : tunnel_hooks) :
  reads_started (destroy_events H) = 0%nat.
Proof. unfold destroy_events. destruct (tunnel_dying H); reflexivity. Qed.

(** A session whose [init_done_cb] is NULL or refuses, and leaves the
    session live and unreferenced, is shut down by [tunnel_initialize]
    without a read; the four close completions, in any order, then destroy
    it, once. *)
Theorem initialize_refused (H : tunnel_hooks) (idle_timeout : Z)
    (cb : option (tunnel_ctx -> bool * tunnel_ctx))
    (order : list uv_handle) (w : world) :
  fst (init_verdict idle_timeout cb) = false ->
  live (snd (init_verdict idle_timeout cb)) ->
  ref_count (snd (init_verdict idle_timeout cb)) = 0 ->
  Permutation
    [tcp_handle Incoming; timer_handle Incoming;
     tcp_handle Outgoing; timer_handle Outgoing] order ->
  exists w1 w2,
    tunnel_initialize idle_timeout cb w = Ok tt w1 /\
    terminated (tunnel w1) = true /\
    close_requests (trace w1) =
      close_requests (trace w)
      ++ [tcp_handle Incoming; timer_handle Incoming;
          tcp_handle Outgoing; timer_handle Outgoing] /\
    close_completions H order w1 = Ok tt w2 /\
    reads_started (trace w2) = reads_started (trace w) /\
    destructions (trace w2) = S (destructions (trace w)).
Proof.
  intros Hv Hlive Hrc Hperm.
  set (t := snd (init_verdict idle_timeout cb)) in *.
  pose proof (shutdown_then_close_completions H
                (mk_world t (trace w ++ init_events)) order Hlive Hrc Hperm)
    as Hrun.
  unfold bind in Hrun. rewrite (tunnel_shutdown_live (mk_world t (trace w ++ init_events)) Hlive) in Hrun.
  cbn [tunnel trace] in Hrun.
  do 2 eexists. rewrite tunnel_initialize_runs, Hv. fold t.
  split; [apply (tunnel_shutdown_live (mk_world t (trace w ++ init_events)) Hlive)|].
  cbn [tunnel trace].
  split; [reflexivity|]. split.
  { rewrite !close_requests_app. unfold shutdown_events.
    destruct (getaddrinfo_pending t); cbn; rewrite app_nil_r; reflexivity. }
  split; [exact Hrun|]. cbn [trace]. split.
  - rewrite !reads_started_app, reads_started_shutdown_events,
      reads_started_destroy_events. cbn. lia.
  - rewrite destructions_destroy, !destructions_app,
      destructions_shutdown_events. cbn. lia.
Qed.

Lemma initialize_refused_witness :
  exists w1 w2,
    tunnel_initialize 60000 None fresh_world = Ok tt w1 /\
    terminated (tunnel w1) = true /\
    close_requests (trace w1) =
      close_requests (trace fresh_world)
      ++ [tcp_handle Incoming; timer_handle Incoming;
          tcp_handle Outgoing; timer_handle Outgoing] /\
    close_completions (idle_hooks false)
      (rev [tcp_handle Incoming; timer_handle Incoming;
            tcp_handle Outgoing; timer_handle Outgoing]) w1 = Ok tt w2 /\
    reads_started (trace w2) = reads_started (trace fresh_world) /\
    destructions (trace w2) = S (destructions (trace fresh_world)).
Proof.
  apply initialize_refused.
  - reflexivity.
  - repeat split; discriminate.
  - reflexivity.
  - apply Permutation_rev.
Defined.

(** A session whose [init_done_cb] accepts, and leaves the incoming socket
    idle, starts its first read on the incoming socket and arms its timer;
    nothing is closed.  With the read-state of the incoming socket anything
    but idle, the process stops at the assertion of [socket_read]. *)
Theorem initialize_accepted (timeout : Z)
    (cb : option (tunnel_ctx -> bool * tunnel_ctx)) (w : world) :
  fst (init_verdict timeout cb) = true ->
  (rdstate (incoming (snd (init_verdict timeout cb))) = socket_stop ->
   tunnel_initialize timeout cb w =
   Ok tt (mk_world
            (set_sock Incoming
               (set_rdstate socket_busy (incoming (snd (init_verdict timeout cb))))
               (snd (init_verdict timeout cb)))
            ((trace w ++ init_events)
             ++ [uv_read_start Incoming;
                 uv_timer_start Incoming
                   (idle_timeout (incoming (snd (init_verdict timeout cb))))]))) /\
  (rdstate (incoming (snd (init_verdict timeout cb))) <> socket_stop ->
   tunnel_initialize timeout cb w =
   Abort (mk_world (snd (init_verdict timeout cb)) (trace w ++ init_events))).
Proof.
  intros Hv. rewrite tunnel_initialize_runs, Hv. split; intros Hs.
  - apply (socket_read_idle Incoming). exact Hs.
  - apply (socket_read_not_idle Incoming). exact Hs.
Qed.

Lemma initialize_accepted_witness :
  tunnel_initialize 60000 (Some (fun t => (true, t))) fresh_world =
  Ok tt (mk_world
           (set_sock Incoming (set_rdstate socket_busy (new_socket 60000))
              (new_tunnel 60000))
           (init_events
            ++ [uv_read_start Incoming; uv_timer_start Incoming 60000])).
Proof.
  apply (initialize_accepted 60000 (Some (fun t => (true, t))) fresh_world).
  - reflexivity.
  - reflexivity.
Defined.

(** ** The timer *)

(** However the timeout hook leaves the session, a timer callback that
    returns leaves it terminated. *)
Theorem timer_expiry_terminates (K : uv_constants) (H : tunnel_hooks)
    (c : side) (w w' : world) :
  socket_timer_expire_cb K H c w = Ok tt w' ->
  terminated (tunnel w') = true.
Proof.
  unfold socket_timer_expire_cb.
  unfold bind at 1 2, modify_sock, modify_tunnel, get_tunnel.
  cbn [tunnel trace]. fold (with_result c (UV_ETIMEDOUT K) (tunnel w)).
  unfold tunnel_is_dead. rewrite terminated_with_result.
  destruct (terminated (tunnel w)) eqn:Ht; cbn [Bool.eqb negb].
  - unfold ret. intros E. inversion E. cbn [tunnel].
    rewrite terminated_with_result. exact Ht.
  - unfold bind.
    destruct (tunnel_timeout_expire_done H) as [f|];
      unfold call_hook, bind, emit, modify_tunnel, ret; cbn [tunnel trace];
      apply tunnel_shutdown_sets_terminated.
Qed.

Lemma timer_expiry_terminates_witness :
  terminated
    (tunnel
       (mk_world
          (after_shutdown
             (with_result Incoming (UV_ETIMEDOUT linux_constants)
                (tunnel fresh_world)))
          (shutdown_events (tunnel fresh_world)))) = true.
Proof.
  apply (timer_expiry_terminates linux_constants (idle_hooks false) Incoming
           fresh_world).
  reflexivity.
Defined.

(** On a live session that the timeout hook, when there is one, leaves
    live, the timer callback stores [UV_ETIMEDOUT] on its socket, calls the
    hook, once, and shuts the session down: both sockets are closed and four
    closes are requested. *)
Theorem timer_expiry_shuts_down (K : uv_constants) (H : tunnel_hooks)
    (c : side) (w : world) :
  live (tunnel w) ->
  (forall f, tunnel_timeout_expire_done H = Some f ->
             live (f (with_result c (UV_ETIMEDOUT K) (tunnel w)) c)) ->
  exists w',
    socket_timer_expire_cb K H c w = Ok tt w' /\
    terminated (tunnel w') = true /\
    closed_socket (incoming (tunnel w')) /\
    closed_socket (outgoing (tunnel w')) /\
    calls (trace w') =
      calls (trace w)
      ++ match tunnel_timeout_expire_done H with
         | Some _ => [call (on_timeout_expire_done c)]
         | None => []
         end /\
    close_requests (trace w') =
      close_requests (trace w)
      ++ [tcp_handle Incoming; timer_handle Incoming;
          tcp_handle Outgoing; timer_handle Outgoing].
Proof.
  intros Hlive Hhook. pose proof Hlive as (Ht & _).
  unfold socket_timer_expire_cb.
  unfold bind at 1 2, modify_sock, modify_tunnel, get_tunnel.
  cbn [tunnel trace]. fold (with_result c (UV_ETIMEDOUT K) (tunnel w)).
  unfold tunnel_is_dead. rewrite terminated_with_result, Ht.
  cbn [Bool.eqb negb]. unfold bind.
  assert (Hcr : forall t, close_requests (shutdown_events t) =
                  [tcp_handle Incoming; timer_handle Incoming;
                   tcp_handle Outgoing; timer_handle Outgoing])
    by (intros t; unfold shutdown_events;
        destruct (getaddrinfo_pending t); reflexivity).
  destruct (tunnel_timeout_expire_done H) as [f|].
  - unfold call_hook, bind, emit, modify_tunnel. cbn [tunnel trace].
    rewrite tunnel_shutdown_live by (apply Hhook; reflexivity).
    eexists. split; [reflexivity|]. cbn [tunnel trace]. repeat split.
    + rewrite !calls_app, calls_shutdown_events, app_nil_r. reflexivity.
    + rewrite !close_requests_app, Hcr. cbn. rewrite app_nil_r. reflexivity.
  - unfold ret.
    rewrite tunnel_shutdown_live by (apply live_with_result; exact Hlive).
    eexists. split; [reflexivity|]. cbn [tunnel trace]. repeat split.
    + rewrite !calls_app, calls_shutdown_events, !app_nil_r. reflexivity.
    + rewrite !close_requests_app, Hcr. reflexivity.
Qed.

Lemma timer_expiry_shuts_down_witness :
  exists w',
    socket_timer_expire_cb linux_constants (idle_hooks false) Outgoing
      fresh_world = Ok tt w' /\
    terminated (tunnel w') = true /\
    closed_socket (incoming (tunnel w')) /\
    closed_socket (outgoing (tunnel w')) /\
    calls (trace w') = calls (trace fresh_world) ++ [] /\
    close_requests (trace w') =
      close_requests (trace fresh_world)
      ++ [tcp_handle Incoming; timer_handle Incoming;
          tcp_handle Outgoing; timer_handle Outgoing].
Proof.
  apply (timer_expiry_shuts_down linux_constants (idle_hooks false) Outgoing
           fresh_world).
  - repeat split; discriminate.
  - intros f E. discriminate E.
Defined.

(** ** The read completion, on an error *)

(** A read completion with a negative count on a live session never reaches
    the read hook: on [UV_EOF] and [UV_ECONNRESET] the session is shut down,
    on any other negative count the process stops at the assertion. *)
Theorem read_error_shuts_down (K : uv_constants) (H : tunnel_hooks)
    (c : side) (nread buf_base : Z) (w : world) :
  live (tunnel w) ->
  nread < 0 ->
  if (nread =? UV_EOF K) || (nread =? UV_ECONNRESET K) then
    exists w',
      socket_read_done_cb K H c nread buf_base w = Ok tt w' /\
      tunnel w' = after_shutdown (tunnel w) /\
      terminated (tunnel w') = true /\
      calls (trace w') = calls (trace w)
  else
    exists w',
      socket_read_done_cb K H c nread buf_base w = Abort w' /\
      tunnel w' = tunnel w /\
      calls (trace w') = calls (trace w).
Proof.
  intros Hlive Hn. pose proof Hlive as (Ht & _).
  unfold socket_read_done_cb. step. rewrite Ht. step.
  destruct (Z.eqb_spec nread 0); [lia|].
  destruct (Z.ltb_spec nread 0); [|lia].
  destruct ((nread =? UV_EOF K) || (nread =? UV_ECONNRESET K)).
  - destruct (tunnel_is_on_the_fly H (tunnel w)); step;
      match goal with
      | |- context [tunnel_shutdown ?w0] =>
          rewrite (tunnel_shutdown_live w0) by exact Hlive
      end;
      (eexists; split; [reflexivity|]); cbn [tunnel trace]; repeat split;
      rewrite !calls_app, calls_shutdown_events; cbn; rewrite ?app_nil_r;
      reflexivity.
  - destruct (tunnel_is_on_the_fly H (tunnel w)); step;
      (eexists; split; [reflexivity|]); cbn [tunnel trace]; repeat split;
      rewrite !calls_app; cbn; rewrite ?app_nil_r; reflexivity.
Qed.

Lemma read_error_shuts_down_witness :
  exists w',
    socket_read_done_cb linux_constants (idle_hooks false) Incoming
      (UV_EOF linux_constants) 0 fresh_world = Ok tt w' /\
    tunnel w' = after_shutdown (tunnel fresh_world) /\
    terminated (tunnel w') = true /\
    calls (trace w') = calls (trace fresh_world).
Proof.
  apply (read_error_shuts_down linux_constants (idle_hooks false) Incoming
           (UV_EOF linux_constants) 0 fresh_world).
  - repeat split; discriminate.
  - reflexivity.
Defined.

(** ** The write completion *)


Lemma set_sock_twice (c : side) (s1 s2 : socket_ctx) (t : tunnel_ctx) :
  set_sock c s2 (set_sock c s1 t) = set_sock c s2 t.
Proof. destruct c; reflexivity. Qed.

Ltac tidy :=
  cbn [tunnel trace];
  rewrite ?sock_set_sock, ?set_sock_twice; cbn [tunnel trace];
  rewrite <- ?app_assoc; cbn [app].

(** The session with the write of [c] completed with [status]. *)
Lemma write_done_live (K : uv_constants) (H : tunnel_hooks) (c : side)
    (status : Z) (w : world) :
  terminated (tunnel w) = false ->
  socket_write_done_cb K H c status w =
  (if status =? UV_ECANCELED K then tunnel_shutdown
   else
     bind get_tunnel (fun t =>
     bind (when (Bool.eqb (tunnel_is_on_the_fly H t) false)
             (ASSERT (socket_state_eqb (wrstate (sock t c)) socket_busy)))
       (fun _ =>
     bind (modify_sock c (set_wrstate socket_done)) (fun _ =>
     bind (modify_sock c (set_result status)) (fun _ =>
     call_required (on_write_done c) (tunnel_write_done H) c)))))
    (mk_world (tunnel w) ((trace w ++ [free write_req]) ++ [uv_timer_stop c])).
Proof.
  intros Ht. unfold socket_write_done_cb.
  unfold bind at 1 2 3, emit, get_tunnel, socket_timer_stop, tunnel_is_dead.
  cbn [tunnel trace]. rewrite Ht. cbn [Bool.eqb negb].
  unfold bind at 1, emit. cbn [tunnel trace]. reflexivity.
Qed.

(** When a write completion runs on a live session, the write request is
    released and the idle timer is stopped.  On [UV_ECANCELED] the session
    is shut down and no hook is called.  On any other status the write-state
    becomes Completed, the status is stored and [tunnel_write_done] is
    called, once, on that session; outside streaming mode this asks that
    the write-state was InProgress, and the process stops at the assertion
    when it was not. *)
Theorem write_completion_policy (K : uv_constants) (H : tunnel_hooks)
    (f : tunnel_ctx -> side -> tunnel_ctx) (c : side) (status : Z) (w : world) :
  live (tunnel w) ->
  tunnel_write_done H = Some f ->
  if status =? UV_ECANCELED K then
    socket_write_done_cb K H c status w =
    Ok tt (mk_world (after_shutdown (tunnel w))
             (trace w ++ [free write_req; uv_timer_stop c]
              ++ shutdown_events (tunnel w)))
  else if tunnel_is_on_the_fly H (tunnel w)
          || socket_state_eqb (wrstate (sock (tunnel w) c)) socket_busy then
    socket_write_done_cb K H c status w =
    Ok tt (mk_world
             (f (set_sock c
                   (set_result status (set_wrstate socket_done (sock (tunnel w) c)))
                   (tunnel w)) c)
             (trace w ++ [free write_req; uv_timer_stop c;
                          call (on_write_done c)]))
  else
    socket_write_done_cb K H c status w =
    Abort (mk_world (tunnel w) (trace w ++ [free write_req; uv_timer_stop c])).
Proof.
  intros Hlive Hf. pose proof Hlive as (Ht & _).
  rewrite (write_done_live K H c status w Ht).
  destruct (status =? UV_ECANCELED K).
  - rewrite tunnel_shutdown_live by exact Hlive. cbn [tunnel trace].
    rewrite <- !app_assoc. reflexivity.
  - rewrite Hf. step.
    destruct (tunnel_is_on_the_fly H (tunnel w)); cbn [Bool.eqb orb].
    + tidy. reflexivity.
    + destruct (socket_state_eqb (wrstate (sock (tunnel w) c)) socket_busy).
      * tidy. reflexivity.
      * tidy. reflexivity.
Qed.

Lemma write_completion_policy_witness :
  socket_write_done_cb linux_constants (idle_hooks true) Incoming 0 fresh_world =
  Ok tt (mk_world
           (set_sock Incoming
              (set_result 0 (set_wrstate socket_done fresh_socket))
              (tunnel fresh_world))
           [free write_req; uv_timer_stop Incoming;
            call (on_write_done Incoming)]).
Proof.
  apply (write_completion_policy linux_constants (idle_hooks true)
           (fun t _ => t) Incoming 0 fresh_world).
  - repeat split; discriminate.
  - reflexivity.
Defined.

(** ** The resolver *)

(** The session [socket_getaddrinfo_done_cb] hands to its hook. *)
Lemma getaddrinfo_done_live (K : uv_constants) (H : tunnel_hooks) (c : side)
    (status : Z) (ai : option addrinfo) (w : world) :
  terminated (tunnel w) = false ->
  socket_getaddrinfo_done_cb K H c status ai w =
  bind (when (status =? 0)
          (match ai with
           | None => abort
           | Some a =>
               if ai_family a =? AF_INET K then
                 modify_sock c (set_t_addr (ai_addr a))
               else if ai_family a =? AF_INET6 K then
                 modify_sock c (set_t_addr (ai_addr a))
               else UNREACHABLE
           end))
    (fun _ =>
       bind (emit uv_freeaddrinfo)
         (fun _ => call_required (on_getaddrinfo_done c)
                     (tunnel_getaddrinfo_done H) c))
    (mk_world (set_getaddrinfo_pending false (with_result c status (tunnel w)))
       (trace w ++ [uv_timer_stop c])).
Proof.
  intros Ht. unfold socket_getaddrinfo_done_cb.
  unfold bind at 1 2 3 4, modify_sock, modify_tunnel, get_tunnel,
    socket_timer_stop, emit, tunnel_is_dead.
  cbn [tunnel trace]. fold (with_result c status (tunnel w)).
  cbn [terminated set_getaddrinfo_pending].
  rewrite terminated_with_result, Ht. reflexivity.
Qed.

(** When the resolver's completion runs on a live session, the pending flag
    is cleared, the status is stored and the idle timer is stopped; the
    hook [tunnel_getaddrinfo_done] is then called, once, whether the
    resolution has failed or not.  On a failure the address of the socket is
    what it was; on a success with an IPv4 or IPv6 answer it is the first
    answer. *)
Theorem resolve_completion (K : uv_constants) (H : tunnel_hooks)
    (f : tunnel_ctx -> side -> tunnel_ctx) (c : side) (status : Z)
    (a : addrinfo) (w : world) :
  terminated (tunnel w) = false ->
  tunnel_getaddrinfo_done H = Some f ->
  (status <> 0 ->
   forall ai,
     socket_getaddrinfo_done_cb K H c status ai w =
     Ok tt (mk_world
              (f (set_getaddrinfo_pending false (with_result c status (tunnel w))) c)
              (trace w ++ [uv_timer_stop c; uv_freeaddrinfo;
                           call (on_getaddrinfo_done c)]))) /\
  (ai_family a = AF_INET K \/ ai_family a = AF_INET6 K ->
   socket_getaddrinfo_done_cb K H c 0 (Some a) w =
   Ok tt (mk_world
            (f (set_sock c
                  (set_t_addr (ai_addr a) (set_result 0 (sock (tunnel w) c)))
                  (set_getaddrinfo_pending false (tunnel w))) c)
            (trace w ++ [uv_timer_stop c; uv_freeaddrinfo;
                         call (on_getaddrinfo_done c)]))) /\
  (ai_family a <> AF_INET K -> ai_family a <> AF_INET6 K ->
   exists w', socket_getaddrinfo_done_cb K H c 0 (Some a) w = Abort w' /\
              calls (trace w') = calls (trace w)).
Proof.
  intros Ht Hf. split; [|split].
  - intros Hs ai. rewrite (getaddrinfo_done_live K H c status ai w Ht).
    destruct (Z.eqb_spec status 0); [contradiction|].
    rewrite Hf. step. rewrite <- !app_assoc. reflexivity.
  - intros Hfam. rewrite (getaddrinfo_done_live K H c 0 (Some a) w Ht).
    rewrite Hf. change (0 =? 0) with true.
    assert (Hcase : (if ai_family a =? AF_INET K
                     then modify_sock c (set_t_addr (ai_addr a))
                     else if ai_family a =? AF_INET6 K
                          then modify_sock c (set_t_addr (ai_addr a))
                          else UNREACHABLE)
                    = modify_sock c (set_t_addr (ai_addr a))).
    { destruct (Z.eqb_spec (ai_family a) (AF_INET K)); [reflexivity|].
      destruct (Z.eqb_spec (ai_family a) (AF_INET6 K)); [reflexivity|].
      destruct Hfam; contradiction. }
    unfold when. rewrite Hcase. step. unfold with_result. tidy.
    destruct c; reflexivity.
  - intros H4 H6. rewrite (getaddrinfo_done_live K H c 0 (Some a) w Ht).
    change (0 =? 0) with true. unfold when.
    destruct (Z.eqb_spec (ai_family a) (AF_INET K)); [contradiction|].
    destruct (Z.eqb_spec (ai_family a) (AF_INET6 K)); [contradiction|].
    step. eexists. split; [reflexivity|]. cbn [trace].
    rewrite calls_app. cbn. apply app_nil_r.
Qed.

Lemma resolve_completion_witness :
  socket_getaddrinfo_done_cb linux_constants (idle_hooks false) Outgoing 0
    (Some (mk_addrinfo 2 (mk_sockaddr 2 16909060))) fresh_world =
  Ok tt (mk_world
           (set_sock Outgoing
              (set_t_addr (mk_sockaddr 2 16909060) (set_result 0 fresh_socket))
              (set_getaddrinfo_pending false (tunnel fresh_world)))
           [uv_timer_stop Outgoing; uv_freeaddrinfo;
            call (on_getaddrinfo_done Outgoing)]).
Proof.
  destruct (resolve_completion linux_constants (idle_hooks false)
              (fun t _ => t) Outgoing 0
              (mk_addrinfo 2 (mk_sockaddr 2 16909060)) fresh_world)
    as (_ & Hok & _).
  - reflexivity.
  - reflexivity.
  - apply Hok. left. reflexivity.
Defined.

(** A resolution that is pending when the session is shut down is
    cancelled, once; when none is pending, nothing is cancelled. *)
Theorem shutdown_cancels_pending (c : side) (w : world) :
  live (tunnel w) ->
  (exists w',
     bind (socket_getaddrinfo c) (fun _ => tunnel_shutdown) w = Ok tt w' /\
     cancels (trace w') = S (cancels (trace w)) /\
     terminated (tunnel w') = true) /\
  (getaddrinfo_pending (tunnel w) = false ->
   exists w',
     tunnel_shutdown w = Ok tt w' /\ cancels (trace w') = cancels (trace w)).
Proof.
  intros Hlive. split.
  - unfold bind at 1. unfold socket_getaddrinfo. step.
    match goal with
    | |- context [tunnel_shutdown ?w0] =>
        rewrite (tunnel_shutdown_live w0)
          by (destruct (tunnel w); exact Hlive)
    end.
    eexists. split; [reflexivity|]. cbn [tunnel trace]. split; [|reflexivity].
    unfold cancels, shutdown_events. cbn [getaddrinfo_pending].
    rewrite !filter_app, !length_app. cbn. lia.
  - intros Hp. rewrite (tunnel_shutdown_live w Hlive).
    eexists. split; [reflexivity|]. cbn [trace].
    unfold cancels, shutdown_events. rewrite Hp.
    rewrite !filter_app, !length_app. cbn. lia.
Qed.

Lemma shutdown_cancels_pending_witness :
  exists w',
    bind (socket_getaddrinfo Outgoing) (fun _ => tunnel_shutdown) fresh_world
    = Ok tt w' /\
    cancels (trace w') = S (cancels (trace fresh_world)) /\
    terminated (tunnel w') = true.
Proof.
  apply (shutdown_cancels_pending Outgoing fresh_world).
  repeat split; discriminate.
Defined.

(** ** What the operations leave alone *)

Lemma kept_socket (w : world) (c : side) (s : socket_ctx) (evs : list event) :
  calls evs = [] -> close_requests evs = [] ->
  (open_socket (sock (tunnel w) c) -> open_socket s) ->
  kept w (mk_world (set_sock c s (tunnel w)) (trace w ++ evs)).
Proof.
  intros Hc Hr Hs. unfold kept. cbn [tunnel trace].
  rewrite calls_app, close_requests_app, Hc, Hr, !app_nil_r.
  split; [destruct c; reflexivity|]. split; [destruct c; reflexivity|].
  split; [reflexivity|]. split; [reflexivity|].
  unfold live. destruct c; cbn [sock set_sock terminated incoming outgoing] in *;
    intros (Ht & Hi & Ho); (split; [exact Ht|]); split;
    try assumption; apply Hs; assumption.
Qed.

Lemma kept_events (w : world) (evs : list event) :
  calls evs = [] -> close_requests evs = [] ->
  kept w (mk_world (tunnel w) (trace w ++ evs)).
Proof.
  intros Hc Hr. unfold kept. cbn [tunnel trace].
  rewrite calls_app, close_requests_app, Hc, Hr, !app_nil_r.
  split; [reflexivity|]. split; [reflexivity|].
  split; [reflexivity|]. split; [reflexivity|]. exact (fun Hl => Hl).
Qed.

(** Reading, stopping a read, writing, resolving, connecting and allocating
    the read buffer leave the teardown to [tunnel_shutdown]: whenever one of
    them returns, the [terminated] flag, the reference count, the closes
    requested and the hooks called are as before, and a live session is
    still live. *)
Theorem operations_leave_teardown_alone (K : uv_constants) (H : tunnel_hooks)
    (c : side) (size new_buf uv_status : Z) (w : world) :
  (forall w', socket_read c w = Ok tt w' -> kept w w') /\
  (forall w', socket_read_stop c w = Ok tt w' -> kept w w') /\
  (forall w', socket_write H c w = Ok tt w' -> kept w w') /\
  (forall w', socket_getaddrinfo c w = Ok tt w' -> kept w w') /\
  (forall r w', socket_connect K c uv_status w = Ok r w' ->
                kept w w' /\ r = uv_status) /\
  (forall r w', socket_alloc_cb H c size new_buf w = Ok r w' -> kept w w').
Proof.
  split; [|split; [|split; [|split; [|split]]]].
  - intros w'. unfold socket_read. step.
    destruct (socket_state_eqb (rdstate (sock (tunnel w) c)) socket_stop);
      [|discriminate].
    step. intros E. inversion E. rewrite <- app_assoc.
    apply kept_socket; try reflexivity.
    intros [_ Hw]. split; [discriminate | exact Hw].
  - intros w'. rewrite socket_read_stop_any. intros E. inversion E.
    apply kept_socket; try reflexivity.
    intros [_ Hw]. split; [discriminate | exact Hw].
  - intros w'. unfold socket_write. step.
    destruct (tunnel_is_on_the_fly H (tunnel w)); cbn [Bool.eqb];
      [|destruct (socket_state_eqb (wrstate (sock (tunnel w) c)) socket_stop
                 || socket_state_eqb (wrstate (sock (tunnel w) c)) socket_done);
        [|discriminate]];
      step; intros E; inversion E; rewrite <- app_assoc;
      (apply kept_socket; try reflexivity);
      intros [Hr _]; (split; [exact Hr | discriminate]).
  - intros w'. unfold socket_getaddrinfo. step. intros E. inversion E.
    unfold kept. cbn [tunnel trace terminated ref_count set_getaddrinfo_pending].
    rewrite <- app_assoc, calls_app, close_requests_app. cbn [app].
    split; [reflexivity|]. split; [reflexivity|].
    split; [cbn; apply app_nil_r|]. split; [cbn; apply app_nil_r|].
    exact (fun Hl => Hl).
  - intros r w'. unfold socket_connect. step.
    destruct ((sa_family (t_addr (sock (tunnel w) c)) =? AF_INET K)
              || (sa_family (t_addr (sock (tunnel w) c)) =? AF_INET6 K));
      [|discriminate].
    step. intros E. inversion E. split; [|reflexivity].
    rewrite <- app_assoc. apply kept_events; reflexivity.
  - intros r w'. unfold socket_alloc_cb. step.
    destruct (tunnel_is_on_the_fly H (tunnel w)); cbn [Bool.eqb];
      [|destruct (socket_state_eqb (rdstate (sock (tunnel w) c)) socket_busy);
        [|discriminate]];
      step; intros E; inversion E;
      rewrite <- (app_nil_r (trace w));
      (apply kept_socket; try reflexivity); exact (fun Ho => Ho).
Qed.

Lemma operations_leave_teardown_alone_witness :
  kept fresh_world
    (mk_world
       (set_sock Incoming (set_rdstate socket_busy fresh_socket)
          (tunnel fresh_world))
       [uv_read_start Incoming; uv_timer_start Incoming 60000]).
Proof.
  destruct (operations_leave_teardown_alone linux_constants (idle_hooks false)
              Incoming 0 0 0 fresh_world) as (Hread & _).
  apply Hread. reflexivity.
Defined.

(** ** One operation of a kind at a time *)

(** A second [socket_read] on a socket before the first has completed stops
    the process at the assertion, and so does, outside streaming mode, a
    second [socket_write]. *)
Theorem operations_do_not_overlap (H : tunnel_hooks) (c : side) (w : world) :
  (exists w', bind (socket_read c) (fun _ => socket_read c) w = Abort w') /\
  ((forall t, tunnel_is_on_the_fly H t = false) ->
   exists w', bind (socket_write H c) (fun _ => socket_write H c) w = Abort w').
Proof.
  split.
  - unfold bind.
    destruct (socket_state_eqb (rdstate (sock (tunnel w) c)) socket_stop) eqn:Hs.
    + apply socket_state_eqb_eq in Hs. rewrite (socket_read_idle c w Hs).
      eexists. apply socket_read_not_idle. cbn [tunnel].
      rewrite sock_set_sock. discriminate.
    + apply socket_state_eqb_neq in Hs. rewrite (socket_read_not_idle c w Hs).
      eexists. reflexivity.
  - intros Hfly. unfold bind.
    destruct (socket_write H c w) as [[] w1|w1] eqn:E; [|eexists; reflexivity].
    revert E. unfold socket_write at 1. step. rewrite Hfly. cbn [Bool.eqb].
    destruct (socket_state_eqb (wrstate (sock (tunnel w) c)) socket_stop
              || socket_state_eqb (wrstate (sock (tunnel w) c)) socket_done);
      [|discriminate].
    step. intros E. inversion E. eexists.
    apply socket_write_guarded; cbn [tunnel].
    + apply Hfly.
    + rewrite sock_set_sock. discriminate.
    + rewrite sock_set_sock. discriminate.
Qed.

Lemma operations_do_not_overlap_witness :
  exists w',
    bind (socket_write (idle_hooks false) Outgoing)
      (fun _ => socket_write (idle_hooks false) Outgoing) fresh_world
    = Abort w'.
Proof.
  apply (operations_do_not_overlap (idle_hooks false) Outgoing fresh_world).
  reflexivity.
Defined.



(** ** A read, from start to hook *)

(** Outside streaming mode, on a live session whose socket is idle: a read
    is started, libuv asks for a buffer and delivers [nread > 0] bytes in
    it.  The three steps return; the hook [tunnel_read_done] is called,
    once, on the session whose socket is Completed, holds [nread] as its
    result and the buffer with the size the size hook has chosen; the read
    has been stopped and the timer too. *)
Theorem read_cycle (K : uv_constants) (H : tunnel_hooks)
    (f : tunnel_ctx -> side -> tunnel_ctx) (c : side)
    (nread size new_buf : Z) (w : world) :
  terminated (tunnel w) = false ->
  rdstate (sock (tunnel w) c) = socket_stop ->
  (forall t, tunnel_is_on_the_fly H t = false) ->
  tunnel_read_done H = Some f ->
  0 < nread ->
  let t1 := set_sock c (set_rdstate socket_busy (sock (tunnel w) c)) (tunnel w) in
  let size' := match tunnel_alloc_size H with
               | Some g => g t1 size
               | None => size
               end in
  bind (socket_read c)
    (fun _ => bind (socket_alloc_cb H c size new_buf)
                (fun b => socket_read_done_cb K H c nread (fst b))) w =
  Ok tt (mk_world
           (f (set_sock c
                 (set_result nread
                    (set_rdstate socket_done
                       (set_buf new_buf size'
                          (set_rdstate socket_busy (sock (tunnel w) c)))))
                 (tunnel w)) c)
           (trace w ++ [uv_read_start c;
                        uv_timer_start c (idle_timeout (sock (tunnel w) c));
                        uv_read_stop c; uv_timer_stop c;
                        call (on_read_done c)])).
Proof.
  intros Ht Hs Hfly Hf Hn t1 size'. unfold bind at 1.
  rewrite (socket_read_idle c w Hs). fold t1.
  assert (Hbusy : rdstate (sock t1 c) = socket_busy)
    by (unfold t1; rewrite sock_set_sock; reflexivity).
  assert (Ht1 : terminated t1 = false) by (unfold t1; destruct c; exact Ht).
  unfold bind at 1, socket_alloc_cb. step. rewrite Hfly, Hbusy.
  cbn [Bool.eqb socket_state_eqb]. step. fold size'.
  set (t2 := set_sock c (set_buf new_buf size' (sock t1 c)) t1).
  assert (Ht2 : terminated t2 = false) by (unfold t2; destruct c; exact Ht1).
  assert (Hbuf : buf (sock t2 c) = new_buf)
    by (unfold t2; rewrite sock_set_sock; reflexivity).
  assert (Hbusy2 : rdstate (sock t2 c) = socket_busy)
    by (unfold t2; rewrite sock_set_sock; exact Hbusy).
  unfold socket_read_done_cb. step. rewrite Ht2. step. rewrite Hfly. step.
  destruct (Z.eqb_spec nread 0); [lia|].
  destruct (Z.ltb_spec nread 0); [lia|].
  step. rewrite Hbuf, Z.eqb_refl. step. rewrite Hfly, Hbusy2.
  cbn [Bool.eqb socket_state_eqb]. step. rewrite Hf. step.
  rewrite <- !app_assoc. cbn [app]. f_equal. f_equal. f_equal.
  unfold t2, t1. rewrite !sock_set_sock, !set_sock_twice. reflexivity.
Qed.

Lemma read_cycle_witness :
  bind (socket_read Incoming)
    (fun _ => bind (socket_alloc_cb (idle_hooks false) Incoming 2048 4096)
                (fun b => socket_read_done_cb linux_constants (idle_hooks false)
                            Incoming 5 (fst b))) fresh_world =
  Ok tt (mk_world
           (set_sock Incoming
              (set_result 5
                 (set_rdstate socket_done
                    (set_buf 4096 2048 (set_rdstate socket_busy fresh_socket))))
              (tunnel fresh_world))
           [uv_read_start Incoming; uv_timer_start Incoming 60000;
            uv_read_stop Incoming; uv_timer_stop Incoming;
            call (on_read_done Incoming)]).
Proof.
  apply (read_cycle linux_constants (idle_hooks false) (fun t _ => t) Incoming
           5 2048 4096 fresh_world).
  - reflexivity.
  - reflexivity.
  - reflexivity.
  - reflexivity.
  - lia.
Defined.

(** ** A completion after the release *)

(** [socket_getaddrinfo] takes no reference on the session.  A resolution is
    started, the session is shut down and its four closes complete: the
    session is released while the resolution is still pending.  The
    completion of the resolution, which the cancellation does not suppress,
    then stores its status and clears the pending flag in the session that
    has been released, before it tests the flag. *)
Lemma resolver_completion_after_release :
  exists w1 w2,
    bind (socket_getaddrinfo Outgoing)
      (fun _ => bind tunnel_shutdown
         (fun _ => close_completions (idle_hooks false)
                     [tcp_handle Incoming; timer_handle Incoming;
                      tcp_handle Outgoing; timer_handle Outgoing]))
      fresh_world = Ok tt w1 /\
    destructions (trace w1) = 1%nat /\
    getaddrinfo_pending (tunnel w1) = true /\
    result (sock (tunnel w1) Outgoing) = 0 /\
    socket_getaddrinfo_done_cb linux_constants (idle_hooks false) Outgoing
      (UV_ECANCELED linux_constants) None w1 = Ok tt w2 /\
    getaddrinfo_pending (tunnel w2) = false /\
    result (sock (tunnel w2) Outgoing) = -125 /\
    trace w2 = trace w1.
Proof.
  let r := eval vm_compute in
    (bind (socket_getaddrinfo Outgoing)
       (fun _ => bind tunnel_shutdown
          (fun _ => close_completions (idle_hooks false)
                      [tcp_handle Incoming; timer_handle Incoming;
                       tcp_handle Outgoing; timer_handle Outgoing]))
       fresh_world) in
  match r with
  | Ok _ ?w1 =>
      exists w1;
      let r2 := eval vm_compute in
        (socket_getaddrinfo_done_cb linux_constants (idle_hooks false)
           Outgoing (UV_ECANCELED linux_constants) None w1) in
      match r2 with
      | Ok _ ?w2 => exists w2
      end
  end.
  repeat split; vm_compute; reflexivity.
Qed.

End TunnelMore.

(* ================================================================== *)
(** * Properties of [convert_address] *)
(* ================================================================== *)

Module ConvertProofs.
Import Convert.

Lemma decimal_value_app (s : list Z) (c : Z) :
  decimal_value (s ++ [c]) = decimal_value s * 10 + (c - 48).
Proof. unfold decimal_value. rewrite fold_left_app. reflexivity. Qed.

Lemma utoa_spec (fuel : nat) :
  forall n : Z,
    0 <= n < 10 ^ Z.of_nat fuel ->
    (length (utoa fuel n) <= fuel)%nat /\
    decimal_value (utoa fuel n) = n /\
    Forall (fun c => 48 <= c <= 57) (utoa fuel n).
Proof.
  induction fuel as [|f IH]; intros n Hn.
  - change (10 ^ Z.of_nat 0) with 1 in Hn. cbn [utoa length].
    repeat split; [lia | cbn; lia | constructor].
  - cbn [utoa]. destruct (Z.ltb_spec n 10).
    + split; [cbn [length]; lia|].
      split; [unfold decimal_value; cbn [fold_left]; lia|].
      repeat constructor; lia.
    + assert (Hq : 0 <= n / 10 < 10 ^ Z.of_nat f).
      { replace (Z.of_nat (S f)) with (1 + Z.of_nat f) in Hn by lia.
        rewrite Z.pow_add_r, Z.pow_1_r in Hn by lia.
        split; [apply Z.div_pos; lia|].
        apply Z.div_lt_upper_bound; lia. }
      destruct (IH (n / 10) Hq) as (Hl & Hv & Hd).
      pose proof (Z.mod_pos_bound n 10 ltac:(lia)) as Hm.
      repeat split.
      * rewrite length_app. cbn [length]. lia.
      * rewrite decimal_value_app, Hv.
        pose proof (Z.div_mod n 10 ltac:(lia)). lia.
      * apply Forall_app. split; [exact Hd|]. repeat constructor; lia.
Qed.

(** For every [unsigned short], what [sprintf] writes for ["%hu"] fits the
    six bytes of [port_buffer], ends in a NUL and is the decimal text of the
    port. *)
Theorem port_buffer_fits (port : Z) :
  0 <= port < 65536 ->
  Z.of_nat (length (sprintf_hu port)) <= sizeof_port_buffer /\
  exists digits,
    sprintf_hu port = digits ++ [0] /\
    Forall (fun c => 48 <= c <= 57) digits /\
    decimal_value digits = port.
Proof.
  intros Hp. unfold sprintf_hu, sizeof_port_buffer.
  rewrite Z.mod_small by exact Hp.
  destruct (utoa_spec 5 port) as (Hl & Hv & Hd).
  { change (10 ^ Z.of_nat 5) with 100000. lia. }
  split.
  - rewrite length_app. cbn [length]. lia.
  - exists (utoa 5 port). repeat split; assumption.
Qed.

Lemma port_buffer_fits_witness :
  Z.of_nat (length (sprintf_hu 65535)) <= sizeof_port_buffer /\
  exists digits,
    sprintf_hu 65535 = digits ++ [0] /\
    Forall (fun c => 48 <= c <= 57) digits /\
    decimal_value digits = 65535.
Proof. apply port_buffer_fits. lia. Defined.

(** A port that is zero as an [unsigned short] is refused, whatever the
    host: the union behind [addr] is untouched. *)
Lemma convert_address_zero_port (K : Tunnel.uv_constants)
    (getaddrinfo : resolver) (addr_str : option (list Z)) (port : Z)
    (addr : option sockaddr_universal) :
  port mod 65536 = 0 ->
  convert_address K getaddrinfo addr_str port addr = Some (-1, addr).
Proof.
  intros Hp. unfold convert_address. rewrite Hp.
  destruct addr_str; reflexivity.
Qed.

(** For a port that is an [unsigned short], [convert_address] returns 0 or
    -1.  On -1 the union behind [addr] is untouched.  It returns 0 only for
    a port that is not zero and a host the resolver, asked with the decimal
    text of the port, has resolved to an IPv4 or IPv6 address; the union
    then holds that address with the port field set to the requested port
    in network order, whatever port the resolver has filled in. *)
Theorem convert_address_result (K : Tunnel.uv_constants) (getaddrinfo : resolver)
    (addr_str : option (list Z)) (port : Z)
    (addr : option sockaddr_universal) (r : Z * option sockaddr_universal) :
  0 <= port < 65536 ->
  convert_address K getaddrinfo addr_str port addr = Some r ->
  (fst r = 0 \/ fst r = -1) /\
  (fst r = -1 -> snd r = addr) /\
  (fst r = 0 ->
   port <> 0 /\
   exists s e,
     addr_str = Some s /\ addr <> None /\
     getaddrinfo s (sprintf_hu port) = (0, Some e) /\
     (ai_family e = Tunnel.AF_INET K \/ ai_family e = Tunnel.AF_INET6 K) /\
     snd r = Some (set_port_field (ai_addr e) (htons_bytes port))).
Proof.
  intros Hrange. unfold convert_address. cbv zeta.
  rewrite (Z.mod_small port 65536) by exact Hrange.
  destruct addr_str as [s|];
    [|intros E; inversion E; cbn; repeat split; auto; discriminate].
  destruct (Z.eqb_spec port 0) as [Hp|Hp];
    [intros E; inversion E; cbn; repeat split; auto; discriminate|].
  destruct addr as [a|];
    [|intros E; inversion E; cbn; repeat split; auto; discriminate].
  destruct (getaddrinfo s (sprintf_hu port)) as [status ai] eqn:Hres.
  destruct (Z.eqb_spec status 0) as [Hs|Hs]; cbn [negb];
    [|intros E; inversion E; cbn; repeat split; auto; discriminate].
  subst status. destruct ai as [e|]; [|discriminate].
  destruct (Z.eqb_spec (ai_family e) (Tunnel.AF_INET K)) as [H4|H4].
  { intros E. inversion E. cbn [fst snd].
    split; [left; reflexivity|]. split; [discriminate|]. intros _.
    split; [exact Hp|]. exists s, e.
    repeat split; auto; discriminate. }
  destruct (Z.eqb_spec (ai_family e) (Tunnel.AF_INET6 K)) as [H6|H6];
    [|discriminate].
  intros E. inversion E. cbn [fst snd].
  split; [left; reflexivity|]. split; [discriminate|]. intros _.
  split; [exact Hp|]. exists s, e.
  repeat split; auto; discriminate.
Qed.

Lemma convert_address_result_witness :
  443 <> 0 /\
  exists s e,
    Some [49; 46; 50; 46; 51; 46; 52] = Some s /\
    Some (mk_sockaddr_universal 0 [0; 0] 0) <> None /\
    one_host [49; 46; 50; 46; 51; 46; 52]
      (mk_addrinfo 2 (mk_sockaddr_universal 2 [0; 0] 16909060))
      s (sprintf_hu 443) = (0, Some e) /\
    (ai_family e = Tunnel.AF_INET Tunnel.linux_constants \/
     ai_family e = Tunnel.AF_INET6 Tunnel.linux_constants) /\
    snd (0, Some (mk_sockaddr_universal 2 [1; 187] 16909060))
    = Some (set_port_field (ai_addr e) (htons_bytes 443)).
Proof.
  apply (convert_address_result Tunnel.linux_constants
           (one_host [49; 46; 50; 46; 51; 46; 52]
              (mk_addrinfo 2 (mk_sockaddr_universal 2 [0; 0] 16909060)))
           (Some [49; 46; 50; 46; 51; 46; 52]) 443
           (Some (mk_sockaddr_universal 0 [0; 0] 0))
           (0, Some (mk_sockaddr_universal 2 [1; 187] 16909060))).
  - lia.
  - reflexivity.
  - reflexivity.
Defined.

(** The port 65536 arrives as 0 and is refused. *)
Example convert_address_port_65536 :
  convert_address Tunnel.linux_constants
    (one_host [49; 46; 50; 46; 51; 46; 52]
       (mk_addrinfo 2 (mk_sockaddr_universal 2 [0; 0] 16909060)))
    (Some [49; 46; 50; 46; 51; 46; 52]) 65536
    (Some (mk_sockaddr_universal 0 [0; 0] 0))
  = Some (-1, Some (mk_sockaddr_universal 0 [0; 0] 0)).
Proof. apply convert_address_zero_port. reflexivity. Qed.

End ConvertProofs.
